(** * Fake-review dashboard: the charts, badges and API client of the
      React frontend, and the scoring pipeline they display.

    The frontend functions are embedded from their JavaScript sources
    (frontend/src/charts, frontend/src/components, frontend/src/pages,
    frontend/src/services).  The scoring pipeline (backend/ml) is not part
    of the sources at hand; the definitions of [Module Pipeline] follow the
    written specification and say so. *)

From Stdlib Require Import ZArith QArith Qround Lia Lqa Permutation.
From stdpp Require Import base option list strings gmap.
From Stdlib Require Import Ascii.

Local Open Scope string_scope.
Local Open Scope list_scope.
Local Open Scope Z_scope.

(* ===================================================================== *)
(** ** JavaScript values, numbers and completions                         *)
(* ===================================================================== *)

Module JS.

(** A JavaScript Number: a finite double (seen as the rational it
    denotes), the two infinities, or NaN.  Signed zero is not
    distinguished; nothing below depends on it. *)
Inductive number : Type :=
| Finite (q : Q)
| PosInf
| NegInf
| NaN.

Definition of_Z (z : Z) : number := Finite (inject_Z z).

Definition Qltb (p q : Q) : bool := negb (Qle_bool q p).

(** [x < y] of the language: false as soon as one side is NaN. *)
Definition lt (x y : number) : bool :=
  match x, y with
  | NaN, _ | _, NaN => false
  | Finite p, Finite q => Qltb p q
  | Finite _, PosInf => true
  | Finite _, NegInf => false
  | PosInf, _ => false
  | NegInf, NegInf => false
  | NegInf, _ => true
  end.

(** [Math.round]: the closest integer, ties towards +infinity; infinities
    and NaN are returned unchanged. *)
Definition Math_round (x : number) : number :=
  match x with
  | Finite q => of_Z (Qfloor (q + (1 # 2)))
  | _ => x
  end.

(** [Math.min] and [Math.max] of two arguments: NaN is contagious. *)
Definition Math_min (x y : number) : number :=
  match x, y with
  | NaN, _ | _, NaN => NaN
  | _, _ => if lt y x then y else x
  end.

Definition Math_max (x y : number) : number :=
  match x, y with
  | NaN, _ | _, NaN => NaN
  | _, _ => if lt x y then y else x
  end.

(** The values a property of a JSON-decoded object, or a property lookup
    on an object literal, can hold here.  [Builtin n] stands for the
    function or object found under the name [n] on [Object.prototype],
    [Obj] for any other array or object. *)
Inductive value : Type :=
| Undefined
| Null
| Boolean (b : bool)
| Number (n : number)
| Str (s : string)
| Builtin (name : string)
| Obj.

(** [ToBoolean]. *)
Definition truthy (v : value) : bool :=
  match v with
  | Undefined | Null => false
  | Boolean b => b
  | Number (Finite q) => negb (Qeq_bool q 0)
  | Number NaN => false
  | Number _ => true
  | Str s => negb (String.eqb s "")
  | Builtin _ | Obj => true
  end.

(** [a || b]. *)
Definition or (a b : value) : value := if truthy a then a else b.

(** [v === 'lit'] for a string literal. *)
Definition strict_eq_str (v : value) (lit : string) : bool :=
  match v with
  | Str s => String.eqb s lit
  | _ => false
  end.

(** The property names every ordinary object inherits from
    [Object.prototype]; each holds a function, except [__proto__], an
    accessor that yields the prototype object: all are truthy. *)
Definition Object_prototype_keys : list string :=
  [ "constructor"; "hasOwnProperty"; "isPrototypeOf";
    "propertyIsEnumerable"; "toLocaleString"; "toString"; "valueOf";
    "__proto__"; "__defineGetter__"; "__defineSetter__";
    "__lookupGetter__"; "__lookupSetter__" ].

Definition inherited (key : string) : bool :=
  existsb (String.eqb key) Object_prototype_keys.

(** [obj[key]] on an object literal whose own properties are the string
    map [obj]: own property first, then the prototype chain. *)
Definition get (obj : gmap string string) (key : string) : value :=
  match obj !! key with
  | Some v => Str v
  | None => if inherited key then Builtin key else Undefined
  end.

(** What evaluating a block yields: a value, or a thrown exception. *)
Inductive exn : Type :=
| TypeError
| Error (message : value).

Inductive completion (E A : Type) : Type :=
| Normal (a : A)
| Throw (e : E).
Arguments Normal {E A} a.
Arguments Throw {E A} e.

Definition bind {E A B} (c : completion E A) (k : A -> completion E B)
  : completion E B :=
  match c with
  | Normal a => k a
  | Throw e => Throw e
  end.

(** [xs.forEach(f)] where [f] updates an accumulator and may throw. *)
Fixpoint forEach {E A S} (f : S -> A -> completion E S) (xs : list A) (s : S)
  : completion E S :=
  match xs with
  | [] => Normal s
  | x :: xs' => bind (f s x) (forEach f xs')
  end.

(** [try { body } catch (e) { handler(e) }]. *)
Definition try_catch {E E' A} (body : completion E A)
    (handler : E -> completion E' A) : completion E' A :=
  match body with
  | Normal a => Normal a
  | Throw e => handler e
  end.

End JS.

(* ===================================================================== *)
(** ** frontend/src/charts/RatingChart.jsx                                *)
(* ===================================================================== *)

Module RatingChart.
Import JS.

(** The fields of a verdict-annotated review the dashboard reads.
    [rating] is the review's rating after the [ToNumber] conversion that
    [Math.round] and [<] apply (a missing rating is [NaN]). *)
Record Review : Type := mkReview {
  rating : number;
  label : value;
  confidence : number;
}.

Record Row : Type := mkRow {
  row_rating : string;
  genuine : nat;
  fake : nat;
}.

(** The object literal [distribution]; its keys 1..5 sit at positions
    0..4, the order in which [Object.values] lists integer keys. *)
Definition distribution0 : list Row :=
  [ mkRow "1 Star" 0 0; mkRow "2 Stars" 0 0; mkRow "3 Stars" 0 0;
    mkRow "4 Stars" 0 0; mkRow "5 Stars" 0 0 ].

(** The own property a number selects: [distribution[k]] is defined for
    k = 1..5 only ("NaN", "Infinity", "2.5", "0" name no property). *)
Definition index_of (k : number) : option nat :=
  match k with
  | Finite q =>
      if Qeq_bool q 1 then Some 0%nat
      else if Qeq_bool q 2 then Some 1%nat
      else if Qeq_bool q 3 then Some 2%nat
      else if Qeq_bool q 4 then Some 3%nat
      else if Qeq_bool q 5 then Some 4%nat
      else None
  | _ => None
  end.

Definition clampedRating (review : Review) : number :=
  let rating := Math_round (rating review) in
  Math_max (of_Z 1) (Math_min (of_Z 5) rating).

Definition bump_fake (r : Row) : Row :=
  mkRow (row_rating r) (genuine r) (fake r + 1).
Definition bump_genuine (r : Row) : Row :=
  mkRow (row_rating r) (genuine r + 1) (fake r).

(** One iteration of the [forEach] body.  Reading [.fake] or [.genuine]
    of an undefined bucket throws a TypeError. *)
Definition count_review (distribution : list Row) (review : Review)
  : completion exn (list Row) :=
  match index_of (clampedRating review) with
  | None => Throw TypeError
  | Some i =>
      match distribution !! i with
      | None => Throw TypeError
      | Some r =>
          if strict_eq_str (label review) "fake"
          then Normal (<[i := bump_fake r]> distribution)
          else Normal (<[i := bump_genuine r]> distribution)
      end
  end.

(** [Object.values(distribution)] lists the five rows in key order, which
    is the list itself. *)
Definition calculateDistribution (reviews : list Review)
  : completion exn (list Row) :=
  forEach count_review reviews distribution0.

(** The two series the bar chart draws, summed over the buckets. *)
Definition fake_total (data : list Row) : nat :=
  foldr (fun r acc => (fake r + acc)%nat) 0%nat data.
Definition genuine_total (data : list Row) : nat :=
  foldr (fun r acc => (genuine r + acc)%nat) 0%nat data.

End RatingChart.

(* ===================================================================== *)
(** ** frontend/src/charts/FakeGenuineChart.jsx                           *)
(* ===================================================================== *)

Module FakeGenuineChart.

Record Slice : Type := mkSlice {
  name : string;
  slice_value : nat;
  color : string;
}.

Definition data (fakeCount genuineCount : nat) : list Slice :=
  [ mkSlice "Genuine" genuineCount "#22c55e";
    mkSlice "Fake" fakeCount "#ef4444" ].

Definition total (fakeCount genuineCount : nat) : nat :=
  (fakeCount + genuineCount)%nat.

End FakeGenuineChart.

(* ===================================================================== *)
(** ** frontend/src/components/GradeBadge.jsx                             *)
(* ===================================================================== *)

Module GradeBadge.
Import JS.

Definition gradeColors : gmap string string :=
  {[ "A" := "bg-green-500";
     "B" := "bg-lime-500";
     "C" := "bg-yellow-500";
     "D" := "bg-orange-500";
     "F" := "bg-red-500";
     "N/A" := "bg-gray-400" ]}.

Definition sizeClasses : gmap string string :=
  {[ "small" := "w-10 h-10 text-xl";
     "medium" := "w-16 h-16 text-3xl";
     "large" := "w-24 h-24 text-5xl" ]}.

(** What the component renders: the two class fragments interpolated
    into [className], and the text inside the badge. *)
Record Badge : Type := mkBadge {
  colorClass : value;
  sizeClass : value;
  children : string;
}.

(** [size = 'large'] is the parameter's default. *)
Definition GradeBadge (grade : string) (size : option string) : Badge :=
  let size := default "large" size in
  let colorClass := or (get gradeColors grade) (get gradeColors "N/A") in
  let sizeClass := or (get sizeClasses size) (get sizeClasses "large") in
  mkBadge colorClass sizeClass grade.

End GradeBadge.

(* ===================================================================== *)
(** ** frontend/src/components/ReviewCard.jsx                             *)
(* ===================================================================== *)

Module ReviewCard.
Import JS.

Section Arithmetic.
(** The rounding of an exact product to the nearest double. *)
Variable fl : Q -> Q.

(** [x * 100] on Numbers (a positive factor keeps the sign of an
    infinity; the magnitudes met here are far from overflow). *)
Definition times100 (x : number) : number :=
  match x with
  | Finite q => Finite (fl (q * 100))
  | _ => x
  end.

Definition isFake (review : RatingChart.Review) : bool :=
  strict_eq_str (RatingChart.label review) "fake".

Definition confidencePercent (review : RatingChart.Review) : number :=
  Math_round (times100 (RatingChart.confidence review)).
End Arithmetic.

End ReviewCard.

(* ===================================================================== *)
(** ** frontend/src/pages/ResultsPage.jsx                                 *)
(* ===================================================================== *)

Module ResultsPage.
Import JS.

(** [reviews.filter(...)] for the current value of [reviewFilter]. *)
Definition filteredReviews (reviewFilter : string)
    (reviews : list RatingChart.Review) : list RatingChart.Review :=
  List.filter (fun review =>
                 if String.eqb reviewFilter "all" then true
                 else strict_eq_str (RatingChart.label review) reviewFilter)
              reviews.

Definition getFakePercentageColor (percentage : number) : string :=
  if lt percentage (of_Z 15) then "text-green-600"
  else if lt percentage (of_Z 30) then "text-yellow-600"
  else if lt percentage (of_Z 50) then "text-orange-600"
  else "text-red-600".

End ResultsPage.

(* ===================================================================== *)
(** ** frontend/src/services/api.js                                       *)
(* ===================================================================== *)

Module Api.
Import JS.

(** JSON as the HTTP client decodes it. *)
#[warnings="-register-all"] Inductive json : Type :=
| JNull
| JBool (b : bool)
| JNum (q : Q)
| JStr (s : string)
| JArr (items : list json)
| JObj (fields : list (string * json)).

(** The argument of [new Error(...)] is kept as the value it was built
    from; objects and arrays are truthy whatever they hold. *)
Definition to_value (j : json) : value :=
  match j with
  | JNull => Null
  | JBool b => Boolean b
  | JNum q => Number (Finite q)
  | JStr s => Str s
  | JArr _ | JObj _ => Obj
  end.

Fixpoint assoc (key : string) (fields : list (string * json)) : option json :=
  match fields with
  | [] => None
  | (k, v) :: rest => if String.eqb k key then Some v else assoc key rest
  end.

(** [response.data]; [None] is an absent body. *)
Record Response : Type := mkResponse { data : option json }.

(** The rejection value of the HTTP client: [response] is present when
    the server answered with an error status, [request] when the request
    left but no answer came, [message] otherwise. *)
Record AxiosError : Type := mkAxiosError {
  response : option Response;
  request : bool;
  message : option string;
}.

(** How the awaited request settles. *)
Inductive settled : Type :=
| Fulfilled (r : Response)
| Rejected (e : AxiosError).

Definition await (s : settled) : completion AxiosError Response :=
  match s with
  | Fulfilled r => Normal r
  | Rejected e => Throw e
  end.

(** [data?.detail]. *)
Definition detail (d : option json) : value :=
  match d with
  | Some (JObj fields) =>
      match assoc "detail" fields with
      | Some j => to_value j
      | None => Undefined
      end
  | _ => Undefined
  end.

Definition opt_str (m : option string) : value :=
  match m with
  | Some s => Str s
  | None => Undefined
  end.

Definition analyzeProduct (outcome : settled) : completion exn (option json) :=
  try_catch
    (bind (await outcome) (fun response => Normal (data response)))
    (fun error =>
       match response error with
       | Some r =>
           let message := or (detail (data r)) (Str "Analysis failed") in
           Throw (Error message)
       | None =>
           if request error
           then Throw (Error (Str "Unable to reach the server. Please check your connection."))
           else Throw (Error (or (opt_str (message error))
                                 (Str "An unexpected error occurred")))
       end).

Definition getDemoAnalysis (outcome : settled) : completion exn (option json) :=
  try_catch
    (bind (await outcome) (fun response => Normal (data response)))
    (fun _ => Throw (Error (Str "Failed to load demo data"))).

Definition unhealthy : json := JObj [("status", JStr "unhealthy")].

Definition checkHealth (outcome : settled) : completion exn (option json) :=
  try_catch
    (bind (await outcome) (fun response => Normal (data response)))
    (fun _ => Normal (Some unhealthy)).

End Api.

(* ===================================================================== *)
(** ** The scoring pipeline (backend/ml), after the specification         *)
(* ===================================================================== *)

Module Pipeline.

(** Modelled from the spec: the RawReview record (section 3) that the
    scraping collaborator hands to backend/ml, whose sources are missing. *)
Record RawReview : Type := mkRaw {
  reviewer_name : string;
  raw_rating : Z;
  title : string;
  body : string;
  date : string;
  verified_purchase : bool;
  review_id : option string;
}.

(** Modelled from the spec: the FeatureVector of section 3, owned by the
    missing backend/ml/preprocessor.py; the clamped rating travels with it
    because the rule on extreme ratings reads it. *)
Record FeatureVector : Type := mkFV {
  tokens : list string;
  word_count : nat;
  char_count : nat;
  too_short : bool;
  specificity : Q;
  sentiment : Q;
  mismatch : bool;
  duplicate : bool;
  marketing : bool;
  fv_verified : bool;
  fv_rating : Z;
}.

(** Modelled from the spec: one row of the rule table of section 9,
    "(predicate, weight, reason_code)" (missing backend/ml/classifier.py). *)
Record Rule : Type := mkRule {
  check : FeatureVector -> bool;
  weight : Q;
  reason_code : string;
}.

(** Modelled from the spec: the letter grade of section 4.5, with the
    "N/A" of the empty batch (missing backend/ml/aggregator.py). *)
Inductive Grade : Type := A | B | C | D | F | NA.

(** Modelled from the spec: the tunable constants and scoring formulas
    that sections 4 and 9 leave open, gathered as named configuration
    (missing backend/config.py). *)
Record Config : Type := mkConfig {
  normalize : string -> list string;
  specificity_of : list string -> Q;
  sentiment_of : list string -> Q;
  is_marketing : list string -> bool;
  similar : list string -> list string -> bool;
  threshold_low : Q;
  threshold_high : Q;
  length_floor : nat;
  rules : list Rule;
  w_rule : Q;
  w_model : Q;
  decision_threshold : Q;
  reason_cap : nat;
  round1 : Q -> Q;
  describe : Grade -> string;
}.

(** Modelled from the spec: the loaded vectorizer and linear model of
    section 4.3 (missing backend/ml/classifier.py), an injected dependency
    that maps a token sequence to a probability; [None] is the missing or
    corrupt artifact. *)
Definition Artifact : Type := option (list string -> Q).

(** Modelled from the spec: section 7 (a), "clamp rating into range"
    (missing backend/ml/preprocessor.py). *)
Definition clamp_rating (r : Z) : Z := Z.max 1 (Z.min 5 r).

(** Modelled from the spec: the mismatch flag of section 4.1, "rating >= 4
    and sentiment < threshold_low, or rating <= 2 and sentiment >
    threshold_high" (missing backend/ml/preprocessor.py). *)
Definition mismatch_flag (cfg : Config) (rating : Z) (s : Q) : bool :=
  (Z.leb 4 rating && JS.Qltb s (threshold_low cfg))
  || (Z.leb rating 2 && JS.Qltb (threshold_high cfg) s).

(** Modelled from the spec: the token sequence of a review text of the
    missing preprocessor; empty text has no token (section 4.1). *)
Definition tokenize (cfg : Config) (text : string) : list string :=
  if String.eqb text "" then [] else normalize cfg text.

(** Modelled from the spec: [extract(raw_review, batch_context)] of
    section 4.1 (missing backend/ml/preprocessor.py); [batch_context]
    holds the texts of the other reviews of the batch, and empty text
    yields zero length and the too-short flag. *)
Definition extract (cfg : Config) (raw : RawReview) (batch_context : list string)
  : FeatureVector :=
  let toks := tokenize cfg (body raw) in
  let rating := clamp_rating (raw_rating raw) in
  let s := sentiment_of cfg toks in
  {| tokens := toks;
     word_count := length toks;
     char_count := String.length (body raw);
     too_short := Nat.eqb (length toks) 0
                  || Nat.ltb (length toks) (length_floor cfg);
     specificity := specificity_of cfg toks;
     sentiment := s;
     mismatch := mismatch_flag cfg rating s;
     duplicate := existsb (fun other => similar cfg toks (tokenize cfg other))
                          batch_context;
     marketing := is_marketing cfg toks;
     fv_verified := verified_purchase raw;
     fv_rating := rating |}.

(** Modelled from the spec: every review of a batch paired with the rest
    of the batch, the read-only index of the two-phase extraction of
    section 9 (missing backend/ml/preprocessor.py). *)
Fixpoint splits {X : Type} (l : list X) : list (X * list X) :=
  match l with
  | [] => []
  | x :: l' => (x, l') :: map (fun p => (fst p, x :: snd p)) (splits l')
  end.

(** Modelled from the spec: the provenance tag of a sub-score, section 3
    (missing backend/ml/classifier.py). *)
Inductive Provenance : Type := rule | model.

(** Modelled from the spec: the SubScore of section 3 (missing
    backend/ml/classifier.py), a value with its provenance and, for the
    rule scorer, the triggered reason codes with the weight each
    contributed. *)
Record SubScore : Type := mkSub {
  value : Q;
  provenance : Provenance;
  triggered : list (string * Q);
}.

(** Modelled from the spec: "a cumulative suspicion score clamped to
    [0,1]", section 4.2 (missing backend/ml/classifier.py). *)
Definition clamp01 (q : Q) : Q :=
  if Qle_bool q 0 then 0%Q else if Qle_bool 1 q then 1%Q else q.

(** Modelled from the spec: the sum of the contributions, section 4.2
    (missing backend/ml/classifier.py). *)
Definition Qsum (l : list Q) : Q := foldr Qplus 0%Q l.

(** Modelled from the spec: the checks of the rule table that a feature
    vector triggers, in table order, section 4.2 (missing
    backend/ml/classifier.py). *)
Definition fired (cfg : Config) (fv : FeatureVector) : list Rule :=
  List.filter (fun r => check r fv) (rules cfg).

(** Modelled from the spec: the Rule Scorer of section 4.2 (missing
    backend/ml/classifier.py), a table of independent checks evaluated
    uniformly, summed and clamped. *)
Definition rule_score (cfg : Config) (fv : FeatureVector) : SubScore :=
  let rs := fired cfg fv in
  {| value := clamp01 (Qsum (map weight rs));
     provenance := rule;
     triggered := map (fun r => (reason_code r, weight r)) rs |}.

(** Modelled from the spec: the Learned Classifier of section 4.3 (missing
    backend/ml/classifier.py); a missing artifact is reported as a
    degraded state, not a failure. *)
Definition model_score (artifact : Artifact) (fv : FeatureVector)
  : option SubScore :=
  match artifact with
  | Some predict_proba =>
      Some {| value := predict_proba (tokens fv);
              provenance := model;
              triggered := [] |}
  | None => None
  end.

(** Modelled from the spec: the sum of the weights of the available
    sources, by which section 4.4 renormalizes (missing
    backend/ml/classifier.py). *)
Definition weight_total (sources : list (Q * Q)) : Q := Qsum (map fst sources).

(** Modelled from the spec: the weighted average of section 4.4 over the
    sources that are available, each a (weight, sub-score) pair (missing
    backend/ml/classifier.py). *)
Definition weighted_average (sources : list (Q * Q)) : Q :=
  (Qsum (map (fun ws => fst ws * snd ws) sources) / weight_total sources)%Q.

(** Modelled from the spec: the sources the Hybrid Scorer can blend,
    section 4.4 (missing backend/ml/classifier.py): rule and model, or,
    when the classifier is unavailable, the rule alone with the model's
    weight redistributed to it. *)
Definition available (cfg : Config) (r : SubScore) (m : option SubScore)
  : list (Q * Q) :=
  match m with
  | Some m => [ (w_rule cfg, value r); (w_model cfg, value m) ]
  | None => [ (w_rule cfg + w_model cfg, value r)%Q ]
  end.

(** Modelled from the spec: the blended confidence of section 4.4
    (missing backend/ml/classifier.py). *)
Definition blend (cfg : Config) (r : SubScore) (m : option SubScore) : Q :=
  weighted_average (available cfg r m).

(** Modelled from the spec: the blend section 4.4 forbids in degraded
    mode, the model term counted as zero while the rule score keeps its
    original weight (no code has it; it is what the renormalized blend is
    compared with). *)
Definition zero_weighted_blend (cfg : Config) (r : SubScore) : Q :=
  (w_rule cfg * value r + w_model cfg * 0)%Q.

(** Modelled from the spec: the label of a Verdict, section 3 (missing
    backend/ml/classifier.py). *)
Inductive Label : Type := genuine | fake.

(** Modelled from the spec: equality of labels, used to count them
    (missing backend/ml/aggregator.py). *)
Definition label_eqb (a b : Label) : bool :=
  match a, b with
  | genuine, genuine | fake, fake => true
  | _, _ => false
  end.

(** Modelled from the spec: the Verdict of section 3 (missing
    backend/ml/classifier.py). *)
Record Verdict : Type := mkVerdict {
  label : Label;
  confidence : Q;
  reasons : list string;
  source : option string;
}.

(** Modelled from the spec: reasons "ranked by contribution magnitude",
    section 3 (missing backend/ml/classifier.py): insertion into a list
    kept in descending weight. *)
Fixpoint insert_by_weight (x : string * Q) (l : list (string * Q))
  : list (string * Q) :=
  match l with
  | [] => [x]
  | y :: l' => if Qle_bool (snd x) (snd y) then y :: insert_by_weight x l'
               else x :: l
  end.

(** Modelled from the spec: the ranking of the triggered reasons, section
    3 (missing backend/ml/classifier.py). *)
Definition rank (l : list (string * Q)) : list (string * Q) :=
  foldr insert_by_weight [] l.

(** Modelled from the spec: reasons "deduplicated", section 3 (missing
    backend/ml/classifier.py); the first occurrence is kept. *)
Fixpoint dedup (seen : list string) (l : list string) : list string :=
  match l with
  | [] => []
  | x :: l' => if existsb (String.eqb x) seen then dedup seen l'
               else x :: dedup (x :: seen) l'
  end.

(** Modelled from the spec: the generic reason of section 4.4 (missing
    backend/ml/classifier.py). *)
Definition generic_reason : string := "pattern-based detection".

(** Modelled from the spec: the reason list of a verdict, sections 3 and
    4.4 (missing backend/ml/classifier.py): ranked, deduplicated, capped,
    and never empty on a fake verdict. *)
Definition reason_list (cfg : Config) (lbl : Label) (r : SubScore)
  : list string :=
  let shown := take (reason_cap cfg) (dedup [] (map fst (rank (triggered r)))) in
  match lbl, shown with
  | fake, [] => [generic_reason]
  | _, _ => shown
  end.

(** Modelled from the spec: the label assignment of section 4.4 (missing
    backend/ml/classifier.py), "fake if confidence >= a fixed decision
    threshold, else genuine". *)
Definition decide_label (cfg : Config) (c : Q) : Label :=
  if Qle_bool (decision_threshold cfg) c then fake else genuine.

(** Modelled from the spec: [combine(rule_subscore, model_subscore)] of
    section 4.4 (missing backend/ml/classifier.py). *)
Definition combine (cfg : Config) (id : option string)
    (r : SubScore) (m : option SubScore) : Verdict :=
  let c := blend cfg r m in
  let lbl := decide_label cfg c in
  {| label := lbl;
     confidence := c;
     reasons := reason_list cfg lbl r;
     source := id |}.

(** Modelled from the spec: the per-review path of section 2 (missing
    backend/services/analysis_service.py): Preprocessor, then Rule Scorer
    and Learned Classifier, then Hybrid Scorer. *)
Definition judge (cfg : Config) (artifact : Artifact)
    (raw : RawReview) (batch_context : list string) : Verdict :=
  let fv := extract cfg raw batch_context in
  combine cfg (review_id raw) (rule_score cfg fv) (model_score artifact fv).

(** Modelled from the spec: the verdicts of a whole batch, each review
    judged against the rest of the batch (sections 2 and 5; missing
    backend/services/analysis_service.py). *)
Definition judge_all (cfg : Config) (artifact : Artifact)
    (batch : list RawReview) : list (RawReview * Verdict) :=
  map (fun p => (fst p, judge cfg artifact (fst p) (map body (snd p))))
      (splits batch).

(** Modelled from the spec: the grade table of section 4.5 (missing
    backend/ml/aggregator.py). *)
Definition grade_of_percentage (p : Q) : Grade :=
  if JS.Qltb p 5 then A
  else if JS.Qltb p 15 then B
  else if JS.Qltb p 30 then C
  else if JS.Qltb p 50 then D
  else F.

(** Modelled from the spec: the AggregateMetrics of section 3 (missing
    backend/ml/aggregator.py); [None] is the null of an undefined
    percentage or rating. *)
Record AggregateMetrics : Type := mkMetrics {
  total_reviews : nat;
  fake_count : nat;
  genuine_count : nat;
  fake_percentage : option Q;
  original_rating : option Q;
  adjusted_rating : option Q;
  rating_difference : option Q;
  authenticity_grade : Grade;
  grade_description : string;
}.

(** Modelled from the spec: the fake count and the genuine count of
    section 3 (missing backend/ml/aggregator.py). *)
Definition count_label (l : Label) (vs : list (RawReview * Verdict)) : nat :=
  length (List.filter (fun p => label_eqb (label (snd p)) l) vs).

(** Modelled from the spec: the sum of the star ratings of section 3
    (missing backend/ml/aggregator.py). *)
Definition rating_sum (rs : list RawReview) : Z :=
  foldr Z.add 0 (map (fun r => clamp_rating (raw_rating r)) rs).

(** Modelled from the spec: the unweighted mean of the star ratings,
    null on no review (sections 3 and 4.5; missing
    backend/ml/aggregator.py). *)
Definition mean_rating (rs : list RawReview) : option Q :=
  match rs with
  | [] => None
  | _ => Some (Qdiv (inject_Z (rating_sum rs))
                     (inject_Z (Z.of_nat (length rs))))
  end.

(** Modelled from the spec: the genuine-labelled reviews to which the
    adjusted rating is restricted (section 4.5; missing
    backend/ml/aggregator.py). *)
Definition genuine_reviews (vs : list (RawReview * Verdict)) : list RawReview :=
  map fst (List.filter (fun p => label_eqb (label (snd p)) genuine) vs).

(** Modelled from the spec: [aggregate] of section 4.5 (missing
    backend/ml/aggregator.py), with the empty batch of section 7 (c). *)
Definition aggregate (cfg : Config) (vs : list (RawReview * Verdict))
  : AggregateMetrics :=
  let total := length vs in
  let fakes := count_label fake vs in
  let pct :=
    match total with
    | O => None
    | _ => Some (round1 cfg (Qdiv (Qmult 100 (inject_Z (Z.of_nat fakes)))
                                  (inject_Z (Z.of_nat total))))
    end in
  let original := mean_rating (map fst vs) in
  let adjusted := mean_rating (genuine_reviews vs) in
  let grade := match pct with Some p => grade_of_percentage p | None => NA end in
  {| total_reviews := total;
     fake_count := fakes;
     genuine_count := count_label genuine vs;
     fake_percentage := pct;
     original_rating := original;
     adjusted_rating := adjusted;
     rating_difference :=
       match original, adjusted with
       | Some o, Some a => Some (o - a)%Q
       | _, _ => None
       end;
     authenticity_grade := grade;
     grade_description := describe cfg grade |}.

(** Modelled from the spec: the template-driven summary of section 4.5
    (missing backend/ml/aggregator.py), kept as the fields its template
    is filled with; on the empty batch it states that no reviews were
    available. *)
Inductive Summary : Type :=
| NoReviewsAvailable
| Narrative (grade : Grade) (fake_pct : Q) (rating_impact : option Q).

(** Modelled from the spec: the summary of a batch's metrics, sections
    4.5 and 7 (c) (missing backend/ml/aggregator.py). *)
Definition summarize (m : AggregateMetrics) : Summary :=
  match fake_percentage m with
  | None => NoReviewsAvailable
  | Some p => Narrative (authenticity_grade m) p (rating_difference m)
  end.

(** Modelled from the spec: the result object of section 6 (missing
    backend/services/analysis_service.py), with the degraded-mode flag of
    section 7 (b); the pattern summary is left out, nothing below reads
    it. *)
Record Result : Type := mkResult {
  metrics : AggregateMetrics;
  verdicts : list (RawReview * Verdict);
  summary : Summary;
  degraded : bool;
}.

(** Modelled from the spec: the one entry point of section 6 (missing
    backend/services/analysis_service.py). *)
Definition analyze (cfg : Config) (artifact : Artifact)
    (batch : list RawReview) : Result :=
  let vs := judge_all cfg artifact batch in
  let m := aggregate cfg vs in
  {| metrics := m;
     verdicts := vs;
     summary := summarize m;
     degraded := match artifact with Some _ => false | None => true end |}.

(** Modelled from the spec: the grade as the string the dashboard
    receives in [metrics.authenticity_grade] (missing backend/api). *)
Definition grade_string (g : Grade) : string :=
  match g with
  | A => "A" | B => "B" | C => "C" | D => "D" | F => "F" | NA => "N/A"
  end.

(** Modelled from the spec: the label as the string the dashboard
    receives in [review.label] (missing backend/api). *)
Definition label_string (l : Label) : string :=
  match l with
  | genuine => "genuine"
  | fake => "fake"
  end.

(** Modelled from the spec: a raw review merged with its verdict fields
    for display (section 6; missing backend/api), as the dashboard reads
    it. *)
Definition annotated (p : RawReview * Verdict) : RatingChart.Review :=
  {| RatingChart.rating := JS.of_Z (raw_rating (fst p));
     RatingChart.label := JS.Str (label_string (label (snd p)));
     RatingChart.confidence := JS.Finite (confidence (snd p)) |}.

(** Modelled from the spec: the blend weights of section 4.4 (missing
    backend/config.py) are non-negative and sum to 1. *)
Definition valid_weights (cfg : Config) : Prop :=
  (0 <= w_rule cfg /\ 0 <= w_model cfg /\ w_rule cfg + w_model cfg == 1)%Q.

(** Modelled from the spec: the model of section 4.3 (missing
    backend/ml/classifier.py) returns a probability in [0,1]. *)
Definition probability (artifact : Artifact) : Prop :=
  forall p, artifact = Some p -> forall toks, (0 <= p toks <= 1)%Q.

End Pipeline.

(* ===================================================================== *)
(** ** Vocabulary of the statements                                       *)
(* ===================================================================== *)

Module Spec.

(** [review.label === 'fake']. *)
Definition is_fake (review : RatingChart.Review) : bool :=
  JS.strict_eq_str (RatingChart.label review) "fake".

(** How many reviews of a list carry exactly the label 'fake', and how
    many carry anything else. *)
Definition fake_labelled (reviews : list RatingChart.Review) : nat :=
  length (List.filter is_fake reviews).

Definition other_labelled (reviews : list RatingChart.Review) : nat :=
  length (List.filter (fun review => negb (is_fake review)) reviews).

(** The colour tier of each grade of the table: A and B share the lowest
    tier, C, D and F have one each; the empty batch's null percentage
    compares as 0. *)
Definition severity (g : Pipeline.Grade) : string :=
  match g with
  | Pipeline.A | Pipeline.B | Pipeline.NA => "text-green-600"
  | Pipeline.C => "text-yellow-600"
  | Pipeline.D => "text-orange-600"
  | Pipeline.F => "text-red-600"
  end.

(** IEEE rounding to nearest, as far as it is used: monotone, and exact on
    the representable numbers 0 and 100. *)
Definition rounds_to_nearest (fl : Q -> Q) : Prop :=
  (forall x y, x <= y -> fl x <= fl y)%Q /\ (fl 0 == 0)%Q /\ (fl 100 == 100)%Q.

End Spec.

(* ===================================================================== *)
(** ** Sample inputs                                                      *)
(* ===================================================================== *)

Module Sample.
Import JS.

(** Five reviews as the dashboard may receive them: a rating between two
    stars, ratings above and below the range, and labels that are missing,
    null or unknown. *)
Definition reviews : list RatingChart.Review :=
  [ RatingChart.mkReview (Finite (9 # 2)) (Str "fake") (Finite (17 # 20));
    RatingChart.mkReview (of_Z 7) (Str "genuine") (Finite (1 # 10));
    RatingChart.mkReview NegInf Undefined (Finite 0);
    RatingChart.mkReview (of_Z 3) Null (Finite (1 # 2));
    RatingChart.mkReview (Finite (-3)) (Str "suspicious") (Finite 1) ].

Definition out_of_range : RatingChart.Review :=
  RatingChart.mkReview (of_Z 7) (Str "genuine") (Finite (1 # 10)).

(** Exact arithmetic, the simplest rounding. *)
Definition exact (q : Q) : Q := q.

Definition token_eqb (a b : list string) : bool :=
  if decide (a = b) then true else false.

Definition rule_table : list Pipeline.Rule :=
  [ Pipeline.mkRule (fun fv => negb (Pipeline.fv_verified fv)) (3 # 10)
      "Unverified purchase";
    Pipeline.mkRule (fun fv => (Z.eqb (Pipeline.fv_rating fv) 1
                                || Z.eqb (Pipeline.fv_rating fv) 5)
                               && Qle_bool (Pipeline.specificity fv) (1 # 5))
      (1 # 5) "Extreme rating without specifics";
    Pipeline.mkRule Pipeline.too_short (1 # 4) "Short, generic review";
    Pipeline.mkRule Pipeline.marketing (1 # 5) "Marketing language";
    Pipeline.mkRule Pipeline.mismatch (1 # 5) "Rating does not match sentiment";
    Pipeline.mkRule Pipeline.duplicate (3 # 10) "Near-duplicate of another review" ].

(** The defaults of sections 4.4 and 4.5: weights 0.4 and 0.6, decision
    threshold 0.5. *)
Definition cfg : Pipeline.Config :=
  {| Pipeline.normalize := String.words;
     Pipeline.specificity_of := fun toks =>
       (inject_Z (Z.of_nat (length (List.filter (fun t => Nat.ltb 6 (String.length t)) toks)))
        / inject_Z (Z.of_nat (S (length toks))))%Q;
     Pipeline.sentiment_of := fun toks =>
       if existsb (String.eqb "Great") toks then (1 # 2)%Q else 0%Q;
     Pipeline.is_marketing := existsb (String.eqb "recommend!!!");
     Pipeline.similar := token_eqb;
     Pipeline.threshold_low := (-1 # 5)%Q;
     Pipeline.threshold_high := (1 # 5)%Q;
     Pipeline.length_floor := 5%nat;
     Pipeline.rules := rule_table;
     Pipeline.w_rule := (2 # 5)%Q;
     Pipeline.w_model := (3 # 5)%Q;
     Pipeline.decision_threshold := (1 # 2)%Q;
     Pipeline.reason_cap := 3%nat;
     Pipeline.round1 := fun q => (inject_Z (Qfloor (q * 10 + (1 # 2))) / 10)%Q;
     Pipeline.describe := fun g =>
       match g with
       | Pipeline.A => "Excellent authenticity"
       | Pipeline.B => "Good authenticity"
       | Pipeline.C => "Moderate concerns"
       | Pipeline.D => "Significant issues"
       | Pipeline.F => "Poor authenticity"
       | Pipeline.NA => "No reviews"
       end |}.

Definition artifact : Pipeline.Artifact := Some (fun _ => (7 # 10)%Q).

Definition shill : Pipeline.RawReview :=
  Pipeline.mkRaw "A" 5 "Wow" "Great product! Highly recommend!!!" "2025-01-01"
                 false None.

Definition buyer : Pipeline.RawReview :=
  Pipeline.mkRaw "B" 4 "Solid"
    "The battery lasts two days and the charger has a braided cable"
    "2025-01-02" true (Some "r2").

Definition batch : list Pipeline.RawReview := [shill; buyer; shill].

(** The same configuration with all blend weight on the model. *)
Definition model_only : Pipeline.Config :=
  {| Pipeline.normalize := Pipeline.normalize cfg;
     Pipeline.specificity_of := Pipeline.specificity_of cfg;
     Pipeline.sentiment_of := Pipeline.sentiment_of cfg;
     Pipeline.is_marketing := Pipeline.is_marketing cfg;
     Pipeline.similar := Pipeline.similar cfg;
     Pipeline.threshold_low := Pipeline.threshold_low cfg;
     Pipeline.threshold_high := Pipeline.threshold_high cfg;
     Pipeline.length_floor := Pipeline.length_floor cfg;
     Pipeline.rules := Pipeline.rules cfg;
     Pipeline.w_rule := 0%Q;
     Pipeline.w_model := 1%Q;
     Pipeline.decision_threshold := Pipeline.decision_threshold cfg;
     Pipeline.reason_cap := Pipeline.reason_cap cfg;
     Pipeline.round1 := Pipeline.round1 cfg;
     Pipeline.describe := Pipeline.describe cfg |}.

End Sample.

(* ===================================================================== *)
(** ** Strings: the methods the components call                           *)
(* ===================================================================== *)

Module Text.

(** Strings are sequences of code units; the ones modelled are below 256.
    White space ([trim]) among them: TAB, LF, VT, FF, CR, SP and NBSP. *)
Definition is_white_space (c : Ascii.ascii) : bool :=
  match Ascii.nat_of_ascii c with
  | 9%nat | 10%nat | 11%nat | 12%nat | 13%nat | 32%nat | 160%nat => true
  | _ => false
  end.

(** The line terminators that [.] of a regular expression does not match. *)
Definition is_line_terminator (c : Ascii.ascii) : bool :=
  match Ascii.nat_of_ascii c with
  | 10%nat | 13%nat => true
  | _ => false
  end.

Fixpoint trimStart (s : string) : string :=
  match s with
  | String c s' => if is_white_space c then trimStart s' else s
  | EmptyString => EmptyString
  end.

(** [s.trim()]. *)
Definition trim (s : string) : string :=
  String.rev (trimStart (String.rev (trimStart s))).

(** [s.startsWith(p)]. *)
Definition startsWith (p s : string) : bool := String.prefix p s.

(** [s.endsWith(p)]. *)
Definition endsWith (p s : string) : bool :=
  Nat.leb (String.length p) (String.length s)
  && String.eqb (String.substring (String.length s - String.length p)
                           (String.length p) s) p.

(** [s.substring(n)]. *)
Fixpoint substring_from (n : nat) (s : string) : string :=
  match n, s with
  | O, _ => s
  | S n', String _ s' => substring_from n' s'
  | S _, EmptyString => EmptyString
  end.

(** [s.split(sep)] for a separator of one code unit. *)
Fixpoint split (sep : Ascii.ascii) (s : string) : list string :=
  match s with
  | EmptyString => [EmptyString]
  | String c s' =>
      if Ascii.eqb c sep then EmptyString :: split sep s'
      else match split sep s' with
           | h :: t => String c h :: t
           | [] => [String c EmptyString]
           end
  end.

(** [s.replace(/c/g, d)] for single code units [c] and [d]. *)
Fixpoint replace_all (c d : Ascii.ascii) (s : string) : string :=
  match s with
  | EmptyString => EmptyString
  | String x s' => String (if Ascii.eqb x c then d else x) (replace_all c d s')
  end.

End Text.

(* ===================================================================== *)
(** ** frontend/src/components/SummaryCard.jsx                            *)
(* ===================================================================== *)

Module SummaryCard.
Import Text.

(** A child of a list item or paragraph: plain text, or [<strong>] with
    its key. *)
Inductive inline : Type :=
| Plain (s : string)
| Strong (key : nat) (s : string).

(** What one line of the summary becomes; [Nothing] is [null]. *)
Inductive element : Type :=
| H4 (key : nat) (content : string)
| Li (key : nat) (children : list inline)
| P (key : nat) (children : list inline)
| Nothing.

(** What follows a ** at the head of [s], if [s] starts with one. *)
Definition after_marker (s : string) : option string :=
  match s with
  | String c (String d rest) =>
      if Ascii.eqb c "*"%char && Ascii.eqb d "*"%char then Some rest else None
  | _ => None
  end.

(** [line.replace(/\*\*/g, '')]: every ** is removed, scanning from the
    left without overlap. *)
Fixpoint remove_markers (s : string) : string :=
  match s with
  | EmptyString => EmptyString
  | String c s' =>
      match s' with
      | String d rest =>
          if Ascii.eqb c "*"%char && Ascii.eqb d "*"%char
          then remove_markers rest
          else String c (remove_markers s')
      | EmptyString => String c EmptyString
      end
  end.

(** The tail [(.*?)\*\*] of the pattern, tried right after an opening **:
    the shortest run of code units other than line terminators that a **
    follows.  The result is the capture and what is left after the
    closing **. *)
Fixpoint close (s : string) : option (string * string) :=
  match after_marker s with
  | Some rest => Some (EmptyString, rest)
  | None =>
      match s with
      | EmptyString => None
      | String c s' =>
          if is_line_terminator c then None
          else match close s' with
               | Some (capture, rest) => Some (String c capture, rest)
               | None => None
               end
      end
  end.

(** A match of [/\*\*(.*?)\*\*/] that starts at the head of [s]. *)
Definition match_here (s : string) : option (string * string) :=
  match after_marker s with
  | Some rest => close rest
  | None => None
  end.

(** [s.split(/\*\*(.*?)\*\*/)] from a position on: [pending] is the text
    since the last match, [s] what is left to scan.  Every match found ends
    the pending text, contributes its capture, and scanning resumes after
    it; without a match the head of [s] joins the pending text.  [fuel]
    bounds the scan by the length of [s]. *)
Fixpoint split_from (fuel : nat) (pending s : string) : list string :=
  match fuel with
  | O => [String.app pending s]
  | S fuel' =>
      match s with
      | EmptyString => [pending]
      | String c s' =>
          match match_here s with
          | Some (capture, rest) =>
              pending :: capture :: split_from fuel' EmptyString rest
          | None => split_from fuel' (String.app pending (String c EmptyString)) s'
          end
      end
  end.

Definition split_bold (s : string) : list string :=
  split_from (String.length s) EmptyString s.

(** [parts.map((part, i) => i % 2 === 1 ? <strong key={i}>{part}</strong> : part)]. *)
Definition emphasize (parts : list string) : list inline :=
  imap (fun i part => if Nat.eqb (i mod 2) 1 then Strong i part else Plain part)
       parts.

Definition formattedContent (s : string) : list inline :=
  emphasize (split_bold s).

(** The callback of [lines.map]. *)
Definition format_line (index : nat) (line : string) : element :=
  if startsWith "**" line && endsWith "**" line then
    H4 index (remove_markers line)
  else if startsWith "- " line then
    Li index (formattedContent (substring_from 2 line))
  else if negb (String.eqb (trim line) "") then
    P index (formattedContent line)
  else Nothing.

(** What [formatSummary] returns: the empty string for a missing or empty
    text, the array of elements otherwise. *)
Inductive formatted : Type :=
| EmptyText
| Elements (children : list element).

(** [text] is [None] when the summary is null or undefined. *)
Definition formatSummary (text : option string) : formatted :=
  match text with
  | None => EmptyText
  | Some s =>
      if String.eqb s "" then EmptyText
      else Elements (imap format_line (split "010"%char s))
  end.

End SummaryCard.

(* ===================================================================== *)
(** ** frontend/src/components/PatternCard.jsx                            *)
(* ===================================================================== *)

Module PatternCard.

(** The heading: [pattern_type.replace(/_/g, ' ')]. *)
Definition heading (pattern_type : string) : string :=
  Text.replace_all "_"%char " "%char pattern_type.

End PatternCard.

(* ===================================================================== *)
(** ** frontend/src/components/ReviewCard.jsx: the star row               *)
(* ===================================================================== *)

Module StarRow.
Import JS.

(** [Array(5).fill(0).map((_, i) => ...)]: star [i] is filled when
    [i < rating]. *)
Definition stars (rating : number) : list bool :=
  map (fun i => lt (of_Z i) rating) [0; 1; 2; 3; 4].

Definition filled (rating : number) : nat :=
  length (List.filter (fun b => b) (stars rating)).

End StarRow.

(* ===================================================================== *)
(** ** frontend/src/pages/ResultsPage.jsx: the review list and the
       adjusted rating                                                    *)
(* ===================================================================== *)

Module ReviewList.
Import JS.

(** [filteredReviews.slice(0, 20)], the cards that are rendered. *)
Definition shown (filteredReviews : list RatingChart.Review)
  : list RatingChart.Review :=
  take 20 filteredReviews.

(** [filteredReviews.length > 20], the condition of the "Showing 20 of N"
    line. *)
Definition more_notice (filteredReviews : list RatingChart.Review) : bool :=
  Nat.ltb 20 (length filteredReviews).

(** The prefix of the difference shown under the adjusted rating:
    [rating_difference > 0 ? '-' : '']. *)
Definition difference_sign (rating_difference : number) : string :=
  if lt (of_Z 0) rating_difference then "-" else "".

(** [rating_difference > 0.5 ? 'text-orange-600' : 'text-gray-900']. *)
Definition difference_color (rating_difference : number) : string :=
  if lt (Finite (1 # 2)) rating_difference then "text-orange-600"
  else "text-gray-900".

End ReviewList.

(* ===================================================================== *)
(** ** frontend/src/App.jsx                                               *)
(* ===================================================================== *)

Module App.
Import JS.

(** The three pieces of state; [None] is [null].  [analysisResult] holds
    what the completion handler received, a response body or nothing. *)
Record State : Type := mkState {
  currentPage : string;
  analysisResult : option (option Api.json);
  error : option value;
}.

Definition initial : State := mkState "search" None None.

Definition handleAnalysisComplete (result : option Api.json) (s : State) : State :=
  mkState "results" (Some result) None.

Definition handleError (errorMessage : value) (s : State) : State :=
  mkState "search" (analysisResult s) (Some errorMessage).

Definition handleStartAnalysis (s : State) : State :=
  mkState "loading" (analysisResult s) None.

Definition handleReset (s : State) : State :=
  mkState "search" None None.

(** The children of [<main>]: a page, or a number drawn as text. *)
Inductive page : Type :=
| SearchPage (error : option value)
| LoadingPage
| ResultsPage (result : Api.json)
| NumberText (n : number).

(** [analysisResult && <ResultsPage result={analysisResult} />]: a falsy
    [analysisResult] is itself the child, and of the falsy values only a
    number is drawn. *)
Definition results_view (s : State) : list page :=
  match analysisResult s with
  | Some (Some j) =>
      if truthy (Api.to_value j) then [ResultsPage j]
      else match Api.to_value j with
           | Number n => [NumberText n]
           | _ => []
           end
  | _ => []
  end.

Definition main (s : State) : list page :=
  (if String.eqb (currentPage s) "search" then [SearchPage (error s)] else [])
  ++ (if String.eqb (currentPage s) "loading" then [LoadingPage] else [])
  ++ (if String.eqb (currentPage s) "results" then results_view s else []).

(** The callbacks the pages are given. *)
Inductive event : Type :=
| Complete (result : option Api.json)
| Failed (errorMessage : value)
| Start
| Reset.

Definition handle (s : State) (e : event) : State :=
  match e with
  | Complete result => handleAnalysisComplete result s
  | Failed errorMessage => handleError errorMessage s
  | Start => handleStartAnalysis s
  | Reset => handleReset s
  end.

Definition run (events : list event) : State := foldl handle initial events.

End App.

(* ===================================================================== *)
(** ** frontend/src/pages/SearchPage.jsx                                  *)
(* ===================================================================== *)

Module SearchPage.
Import JS.

Section Handlers.
(** The text an engine puts in the [message] of its own TypeError. *)
Variable engine_message : string.

(** [String(v)] for the numbers and objects an Error can be built from;
    their text is not modelled. *)
Variable text_of : value -> string.

(** [err.message]: the string [new Error(message)] makes of its
    argument. *)
Definition message_of (err : exn) : string :=
  match err with
  | Error (Str s) => s
  | Error Undefined => ""
  | Error Null => "null"
  | Error (Boolean b) => if b then "true" else "false"
  | Error v => text_of v
  | TypeError => engine_message
  end.

(** The application state and the page's own [isLoading]. *)
Record View : Type := mkView {
  app : App.State;
  isLoading : bool;
}.

(** Up to the [await]: [setIsLoading(true); onStartAnalysis()]. *)
Definition begin (v : View) : View :=
  mkView (App.handleStartAnalysis (app v)) true.

(** From the [await] on: [onComplete(result)] in the [try],
    [onError(err.message)] in the [catch], [setIsLoading(false)] in the
    [finally]. *)
Definition settle (call : completion exn (option Api.json)) (v : View) : View :=
  let app' :=
    match call with
    | Normal result => App.handleAnalysisComplete result (app v)
    | Throw err => App.handleError (Str (message_of err)) (app v)
    end in
  mkView app' false.

(** [outcome] is how the request behind the call settles. *)
Definition handleSubmit (outcome : Api.settled) (v : View) : View :=
  settle (Api.analyzeProduct outcome) (begin v).


End Handlers.

End SearchPage.

(* ===================================================================== *)
(** ** frontend/src/components/SearchInput.jsx                            *)
(* ===================================================================== *)

Module SearchInput.
Import Text.

(** Matching under the [i] flag: both sides are compared in upper case.
    The patterns hold ASCII only, and among the code units modelled only
    a-z are turned into another ASCII one. *)
Definition upper (c : Ascii.ascii) : Ascii.ascii :=
  let n := Ascii.nat_of_ascii c in
  if Nat.leb 97 n && Nat.leb n 122 then Ascii.ascii_of_nat (n - 32) else c.

(** The literal [pat] matches at the head of [s], ignoring case. *)
Fixpoint literal_at (pat s : string) : bool :=
  match pat, s with
  | EmptyString, _ => true
  | String p pat', String c s' => Ascii.eqb (upper p) (upper c) && literal_at pat' s'
  | String _ _, EmptyString => false
  end.

(** [[A-Z0-9]] under the [i] flag. *)
Definition is_alnum (c : Ascii.ascii) : bool :=
  let n := Ascii.nat_of_ascii (upper c) in
  (Nat.leb 65 n && Nat.leb n 90) || (Nat.leb 48 n && Nat.leb n 57).

(** [[A-Z0-9]{n}] matches at the head of [s]. *)
Fixpoint alnum_at (n : nat) (s : string) : bool :=
  match n, s with
  | O, _ => true
  | S n', String c s' => is_alnum c && alnum_at n' s'
  | S _, EmptyString => false
  end.

(** An unanchored pattern is tried at every position. *)
Fixpoint anywhere (here : string -> bool) (s : string) : bool :=
  here s ||
  match s with
  | String _ s' => anywhere here s'
  | EmptyString => false
  end.

Definition domains : list string :=
  [ "in"; "com"; "co.uk"; "de"; "fr"; "es"; "it"; "ca"; "com.au" ].

(** [/amazon\.(in|com|co\.uk|de|fr|es|it|ca|com\.au)/i] at the head of [s]. *)
Definition amazon_at (s : string) : bool :=
  literal_at "amazon." s
  && existsb (fun d => literal_at d (substring_from 7 s)) domains.

Definition amazonPattern (s : string) : bool := anywhere amazon_at s.

(** [/\/dp\/[A-Z0-9]{10}|\/gp\/product\/[A-Z0-9]{10}/i] at the head of [s]. *)
Definition asin_at (s : string) : bool :=
  (literal_at "/dp/" s && alnum_at 10 (substring_from 4 s))
  || (literal_at "/gp/product/" s && alnum_at 10 (substring_from 12 s)).

Definition asinPattern (s : string) : bool := anywhere asin_at s.

(** [/^[A-Z0-9]{10}$/i]. *)
Definition bare_asin (s : string) : bool :=
  alnum_at 10 s && Nat.eqb (String.length s) 10.

Definition please_enter : string := "Please enter an Amazon product URL".
Definition please_valid : string :=
  "Please enter a valid Amazon product URL (e.g., amazon.in/dp/XXXXXXXXXX)".

(** [None] is the [null] of a valid input. *)
Definition validateUrl (inputUrl : string) : option string :=
  if String.eqb (trim inputUrl) "" then Some please_enter
  else if negb (amazonPattern inputUrl) && negb (asinPattern inputUrl) then
    if bare_asin (trim inputUrl) then None
    else Some please_valid
  else None.

Record State : Type := mkState {
  url : string;
  validationError : string;
}.

(** The input's [onChange]. *)
Definition onChange (value : string) (st : State) : State :=
  mkState value "".

(** The form's [onSubmit]: the new state, and the argument [onSubmit] of
    the page is called with, if it is called. *)
Definition handleSubmit (st : State) : State * option string :=
  match validateUrl (url st) with
  | Some error => (mkState (url st) error, None)
  | None => (mkState (url st) "", Some (url st))
  end.


End SearchInput.

(* ===================================================================== *)
(** ** Vocabulary of the further statements                               *)
(* ===================================================================== *)

Module Tally.
Import JS RatingChart.

(** The review lands in the bucket at position [i], in the fake series
    ([as_fake]) or in the genuine one. *)
Definition lands (i : nat) (as_fake : bool) (review : Review) : bool :=
  match index_of (clampedRating review) with
  | Some j => Nat.eqb i j
              && Bool.eqb (strict_eq_str (label review) "fake") as_fake
  | None => false
  end.

Definition count (i : nat) (as_fake : bool) (reviews : list Review) : nat :=
  length (List.filter (lands i as_fake) reviews).

(** The rows [d] with the reviews of a list counted in. *)
Definition add (d : list Row) (reviews : list Review) : list Row :=
  imap (fun i r => mkRow (row_rating r)
                         (genuine r + count i false reviews)
                         (fake r + count i true reviews)) d.

Definition tally (reviews : list Review) : list Row := add distribution0 reviews.

End Tally.

Module Tier.

(** The colour tiers of the fake percentage, from mildest to gravest. *)
Definition rank (color : string) : nat :=
  if String.eqb color "text-green-600" then 0
  else if String.eqb color "text-yellow-600" then 1
  else if String.eqb color "text-orange-600" then 2
  else 3.

End Tier.

Module Markup.
Import Text SummaryCard.

(** The text a sequence of children was cut from: bold fragments between
    their markers. *)
Fixpoint source (children : list inline) : string :=
  match children with
  | [] => EmptyString
  | Plain s :: rest => String.append s (source rest)
  | Strong _ s :: rest =>
      String.append "**" (String.append s (String.append "**" (source rest)))
  end.

(** The parts of a split put together again, the captures (every second
    part) between markers. *)
Fixpoint join (parts : list string) : string :=
  match parts with
  | [] => EmptyString
  | [t] => t
  | t :: capture :: rest =>
      String.append t
        (String.append "**" (String.append capture
                               (String.append "**" (join rest))))
  end.

(** ** occurs in [s]. *)
Fixpoint has_marker (s : string) : bool :=
  match after_marker s with
  | Some _ => true
  | None =>
      match s with
      | String _ s' => has_marker s'
      | EmptyString => false
      end
  end.


(** Every code unit of [s] is white space. *)
Fixpoint blank (s : string) : bool :=
  match s with
  | EmptyString => true
  | String c s' => is_white_space c && blank s'
  end.

(** No code unit of [s] is a line terminator. *)
Fixpoint single_line (s : string) : bool :=
  match s with
  | EmptyString => true
  | String c s' => negb (is_line_terminator c) && single_line s'
  end.

(** No code unit of [s] is white space. *)
Fixpoint no_space (s : string) : bool :=
  match s with
  | EmptyString => true
  | String c s' => negb (is_white_space c) && no_space s'
  end.

(** How often the code unit [c] occurs in [s]. *)
Fixpoint occurrences (c : Ascii.ascii) (s : string) : nat :=
  match s with
  | EmptyString => 0
  | String x s' => (if Ascii.eqb x c then 1 else 0) + occurrences c s'
  end.

(** The React key of an element. *)
Definition key_of (e : element) : option nat :=
  match e with
  | H4 k _ | Li k _ | P k _ => Some k
  | Nothing => None
  end.

End Markup.

(* ===================================================================== *)
(** ** Numbers: rounding and clamping                                     *)
(* ===================================================================== *)

Section NumberFacts.
Import JS.

Lemma Qltb_lt (p q : Q) : Qltb p q = true <-> (p < q)%Q.
Proof.
  unfold Qltb. rewrite negb_true_iff.
  split; intros H.
  - apply Qnot_le_lt. intros Hle. apply Qle_bool_iff in Hle. congruence.
  - destruct (Qle_bool q p) eqn:E; [|reflexivity].
    apply Qle_bool_iff in E. exfalso. exact (Qlt_not_le _ _ H E).
Qed.

Lemma Qltb_ge (p q : Q) : Qltb p q = false <-> (q <= p)%Q.
Proof.
  unfold Qltb. rewrite negb_false_iff. apply Qle_bool_iff.
Qed.

Lemma lt_of_Z (a b : Z) : lt (of_Z a) (of_Z b) = (a <? b).
Proof.
  unfold lt, of_Z, Qltb, Qle_bool, inject_Z. simpl.
  rewrite !Z.mul_1_r. rewrite Z.ltb_antisym. reflexivity.
Qed.

Lemma Math_min_of_Z (a b : Z) : Math_min (of_Z a) (of_Z b) = of_Z (Z.min a b).
Proof.
  unfold Math_min. change (of_Z a) with (Finite (inject_Z a)) at 1.
  change (of_Z b) with (Finite (inject_Z b)) at 1. cbv iota beta.
  change (Finite (inject_Z b)) with (of_Z b).
  change (Finite (inject_Z a)) with (of_Z a).
  rewrite lt_of_Z. destruct (Z.ltb_spec b a).
  - rewrite Z.min_r by lia. reflexivity.
  - rewrite Z.min_l by lia. reflexivity.
Qed.

Lemma Math_max_of_Z (a b : Z) : Math_max (of_Z a) (of_Z b) = of_Z (Z.max a b).
Proof.
  unfold Math_max. change (of_Z a) with (Finite (inject_Z a)) at 1.
  change (of_Z b) with (Finite (inject_Z b)) at 1. cbv iota beta.
  change (Finite (inject_Z b)) with (of_Z b).
  change (Finite (inject_Z a)) with (of_Z a).
  rewrite lt_of_Z. destruct (Z.ltb_spec a b).
  - rewrite Z.max_r by lia. reflexivity.
  - rewrite Z.max_l by lia. reflexivity.
Qed.

End NumberFacts.

(* ===================================================================== *)
(** ** The rating distribution                                            *)
(* ===================================================================== *)

Section RatingChartFacts.
Import JS RatingChart.

Lemma clampedRating_finite (review : Review) (q : Q) :
  rating review = Finite q ->
  clampedRating review = of_Z (Z.max 1 (Z.min 5 (Qfloor (q + (1 # 2))))).
Proof.
  intros Hq. unfold clampedRating. rewrite Hq. cbn [Math_round].
  rewrite Math_min_of_Z, Math_max_of_Z. reflexivity.
Qed.

Lemma clampedRating_numeric (review : Review) :
  rating review <> NaN ->
  exists k : Z, clampedRating review = of_Z k /\ 1 <= k <= 5.
Proof.
  intros Hnum. destruct (rating review) as [q | | |] eqn:Hr.
  - exists (Z.max 1 (Z.min 5 (Qfloor (q + (1 # 2))))). split.
    + apply clampedRating_finite. exact Hr.
    + lia.
  - exists 5. split; [|lia]. unfold clampedRating. rewrite Hr. reflexivity.
  - exists 1. split; [|lia]. unfold clampedRating. rewrite Hr. reflexivity.
  - congruence.
Qed.

Lemma index_of_of_Z (k : Z) :
  1 <= k <= 5 -> index_of (of_Z k) = Some (Z.to_nat (k - 1)).
Proof.
  intros Hk.
  assert (Hcases : k = 1 \/ k = 2 \/ k = 3 \/ k = 4 \/ k = 5) by lia.
  destruct Hcases as [-> | [-> | [-> | [-> | ->]]]]; reflexivity.
Qed.

Lemma index_of_bound (k : number) (i : nat) :
  index_of k = Some i -> (i < 5)%nat.
Proof.
  destruct k as [q | | |]; cbn; try discriminate.
  repeat match goal with
         | |- context [if ?b then _ else _] => destruct b
         end; intros [= <-]; lia.
Qed.

Lemma fake_total_insert (d : list Row) (i : nat) (r r' : Row) :
  d !! i = Some r ->
  (fake_total (<[i := r']> d) + fake r = fake_total d + fake r')%nat.
Proof.
  revert i. induction d as [| x d IH]; intros [| i] Hi; cbn in *;
    try discriminate.
  - injection Hi as ->. lia.
  - specialize (IH i Hi). unfold fake_total in *.
    rewrite <- !Nat.add_assoc. f_equal. exact IH.
Qed.

Lemma genuine_total_insert (d : list Row) (i : nat) (r r' : Row) :
  d !! i = Some r ->
  (genuine_total (<[i := r']> d) + genuine r = genuine_total d + genuine r')%nat.
Proof.
  revert i. induction d as [| x d IH]; intros [| i] Hi; cbn in *;
    try discriminate.
  - injection Hi as ->. lia.
  - specialize (IH i Hi). unfold genuine_total in *.
    rewrite <- !Nat.add_assoc. f_equal. exact IH.
Qed.

(** One review changes one counter of one bucket, by one. *)
Lemma count_review_numeric (d : list Row) (review : Review) :
  length d = 5%nat ->
  rating review <> NaN ->
  exists (i : nat) (r : Row),
    (i < 5)%nat /\ index_of (clampedRating review) = Some i /\
    d !! i = Some r /\
    count_review d review =
      Normal (<[i := if strict_eq_str (label review) "fake"
                     then bump_fake r else bump_genuine r]> d).
Proof.
  intros Hlen Hnum.
  destruct (clampedRating_numeric review Hnum) as (k & Hk & Hrange).
  pose proof (index_of_of_Z k Hrange) as Hidx. rewrite <- Hk in Hidx.
  pose proof (index_of_bound _ _ Hidx) as Hi.
  destruct (lookup_lt_is_Some_2 d (Z.to_nat (k - 1))) as [r Hr]; [lia|].
  exists (Z.to_nat (k - 1)), r. repeat split; try assumption.
  unfold count_review. rewrite Hidx, Hr.
  destruct (strict_eq_str (label review) "fake"); reflexivity.
Qed.

Lemma fake_labelled_cons (review : Review) (reviews : list Review) :
  Spec.fake_labelled (review :: reviews) =
  ((if strict_eq_str (label review) "fake" then 1 else 0)
   + Spec.fake_labelled reviews)%nat.
Proof.
  unfold Spec.fake_labelled. cbn [List.filter]. unfold Spec.is_fake at 1.
  destruct (strict_eq_str (label review) "fake"); reflexivity.
Qed.

Lemma other_labelled_cons (review : Review) (reviews : list Review) :
  Spec.other_labelled (review :: reviews) =
  ((if strict_eq_str (label review) "fake" then 0 else 1)
   + Spec.other_labelled reviews)%nat.
Proof.
  unfold Spec.other_labelled. cbn [List.filter]. unfold Spec.is_fake at 1.
  destruct (strict_eq_str (label review) "fake"); reflexivity.
Qed.

Lemma forEach_count_review (reviews : list Review) (d : list Row) :
  length d = 5%nat ->
  Forall (fun review => rating review <> NaN) reviews ->
  exists d' : list Row,
    forEach count_review reviews d = @Normal exn _ d' /\
    length d' = 5%nat /\
    fake_total d' = (fake_total d + Spec.fake_labelled reviews)%nat /\
    genuine_total d' = (genuine_total d + Spec.other_labelled reviews)%nat.
Proof.
  intros Hlen Hall. revert d Hlen.
  induction Hall as [| review reviews Hnum _ IH]; intros d Hlen.
  - exists d. cbn. repeat split; try assumption; lia.
  - destruct (count_review_numeric d review Hlen Hnum)
      as (i & r & Hi & _ & Hr & Hstep).
    cbn [forEach]. rewrite Hstep. cbn [bind].
    rewrite fake_labelled_cons, other_labelled_cons.
    destruct (strict_eq_str (label review) "fake");
      [ set (r' := bump_fake r) | set (r' := bump_genuine r) ];
      (destruct (IH (<[i := r']> d)) as (d' & Hrun & Hlen' & Hf & Hg);
       [ rewrite length_insert; exact Hlen | ]);
      exists d'; (split; [exact Hrun|]); (split; [exact Hlen'|]);
      pose proof (fake_total_insert d i r r' Hr) as Hfi;
      pose proof (genuine_total_insert d i r r' Hr) as Hgi;
      rewrite Hf, Hg; subst r';
      cbn [bump_fake bump_genuine fake genuine] in Hfi, Hgi; lia.
Qed.

End RatingChartFacts.

(* ===================================================================== *)
(** ** The aggregator's counts                                            *)
(* ===================================================================== *)

Section AggregatorFacts.
Import Pipeline.

Lemma count_label_partition (vs : list (RawReview * Verdict)) :
  (count_label fake vs + count_label genuine vs = length vs)%nat.
Proof.
  unfold count_label. induction vs as [| [raw v] vs IH]; [reflexivity|].
  cbn [List.filter snd]. destruct (label v); cbn [label_eqb length]; lia.
Qed.

Lemma annotated_numeric (vs : list (RawReview * Verdict)) :
  Forall (fun review => RatingChart.rating review <> JS.NaN) (map annotated vs).
Proof.
  apply Forall_map. apply Forall_forall. intros p _. cbn. discriminate.
Qed.

Lemma fake_labelled_annotated (vs : list (RawReview * Verdict)) :
  Spec.fake_labelled (map annotated vs) = count_label fake vs.
Proof.
  unfold count_label. induction vs as [| [raw v] vs IH]; [reflexivity|].
  cbn [map]. rewrite fake_labelled_cons, IH. cbn [List.filter snd].
  destruct (label v) eqn:E; cbn; rewrite E; reflexivity.
Qed.

Lemma other_labelled_annotated (vs : list (RawReview * Verdict)) :
  Spec.other_labelled (map annotated vs) = count_label genuine vs.
Proof.
  unfold count_label. induction vs as [| [raw v] vs IH]; [reflexivity|].
  cbn [map]. rewrite other_labelled_cons, IH. cbn [List.filter snd].
  destruct (label v) eqn:E; cbn; rewrite E; reflexivity.
Qed.

End AggregatorFacts.

(* ===================================================================== *)
(** ** Counting: fake + genuine = total                                   *)
(* ===================================================================== *)

Section Counting.
Import JS RatingChart.

Lemma labelled_partition (reviews : list Review) :
  (Spec.fake_labelled reviews + Spec.other_labelled reviews = length reviews)%nat.
Proof.
  induction reviews as [| review reviews IH]; [reflexivity|].
  rewrite fake_labelled_cons, other_labelled_cons. cbn [length].
  destruct (strict_eq_str (label review) "fake"); lia.
Qed.

Lemma calculateDistribution_counts (reviews : list Review) :
  Forall (fun review => rating review <> NaN) reviews ->
  exists data : list Row,
    calculateDistribution reviews = @Normal exn _ data /\
    length data = 5%nat /\
    fake_total data = Spec.fake_labelled reviews /\
    genuine_total data = Spec.other_labelled reviews.
Proof.
  intros Hall.
  destruct (forEach_count_review reviews distribution0 eq_refl Hall)
    as (data & Hrun & Hlen & Hf & Hg).
  exists data. repeat split; assumption.
Qed.

(** C2. For every batch, fake count + genuine count = total review count:
    the aggregator's two counts sum to the number of verdicts, the pie
    chart's total is that number, and the bar chart's fake and genuine
    series, summed over the five rating buckets, count every review of the
    list exactly once, for the list the pipeline returns and for any list
    whose ratings are numbers. *)
Theorem fake_plus_genuine_is_total :
  (forall (cfg : Pipeline.Config)
          (vs : list (Pipeline.RawReview * Pipeline.Verdict)),
      let m := Pipeline.aggregate cfg vs in
      (Pipeline.fake_count m + Pipeline.genuine_count m
       = Pipeline.total_reviews m)%nat /\
      Pipeline.total_reviews m = length vs /\
      FakeGenuineChart.total (Pipeline.fake_count m) (Pipeline.genuine_count m)
      = length (map Pipeline.annotated vs) /\
      exists data : list Row,
        calculateDistribution (map Pipeline.annotated vs) = @Normal exn _ data /\
        fake_total data = Pipeline.fake_count m /\
        genuine_total data = Pipeline.genuine_count m /\
        (fake_total data + genuine_total data
         = length (map Pipeline.annotated vs))%nat)
  /\ (forall reviews : list Review,
        Forall (fun review => rating review <> NaN) reviews ->
        exists data : list Row,
          calculateDistribution reviews = @Normal exn _ data /\
          fake_total data = Spec.fake_labelled reviews /\
          genuine_total data = Spec.other_labelled reviews /\
          (fake_total data + genuine_total data = length reviews)%nat).
Proof.
  split.
  - intros cfg vs m. subst m. cbn [Pipeline.aggregate Pipeline.fake_count
      Pipeline.genuine_count Pipeline.total_reviews].
    pose proof (count_label_partition vs) as Hpart.
    unfold FakeGenuineChart.total. rewrite length_map.
    repeat split; try assumption.
    destruct (calculateDistribution_counts _ (annotated_numeric vs))
      as (data & Hrun & _ & Hf & Hg).
    exists data. rewrite Hf, Hg.
    rewrite fake_labelled_annotated, other_labelled_annotated.
    repeat split; assumption.
  - intros reviews Hall.
    destruct (calculateDistribution_counts reviews Hall)
      as (data & Hrun & _ & Hf & Hg).
    exists data. repeat split; try assumption.
    rewrite Hf, Hg. apply labelled_partition.
Qed.

End Counting.

(* ===================================================================== *)
(** ** Ratings outside 1-5                                                *)
(* ===================================================================== *)

Section Clamping.
Import JS RatingChart.

Lemma Qfloor_half (k : Z) : Qfloor (inject_Z k + (1 # 2)) = k.
Proof.
  unfold Qfloor, Qplus, inject_Z. cbn [Qnum Qden].
  change (Z.pos (1 * 2)) with 2.
  symmetry. apply Z.div_unique with (r := 1); lia.
Qed.

(** C7. A review whose rating is a number outside 1-5 is not rejected and
    does not reject its batch: the rounded rating is clamped to an integer
    of 1..5 (5 above the range, 1 below it, the rating itself when it is
    one of 1..5), the review increments one counter of that one bucket and
    leaves the other buckets as they were, and the distribution of a batch
    of such reviews is computed without an exception. *)
Theorem rating_clamped_into_one_bucket (review : Review) :
  rating review <> NaN ->
  (exists k : Z,
      clampedRating review = of_Z k /\ 1 <= k <= 5 /\
      (forall q, rating review = Finite q ->
                 k = Z.max 1 (Z.min 5 (Qfloor (q + (1 # 2))))) /\
      (rating review = PosInf -> k = 5) /\
      (rating review = NegInf -> k = 1) /\
      (forall j, 1 <= j <= 5 -> rating review = of_Z j -> k = j) /\
      forall d : list Row, length d = 5%nat ->
        exists r : Row,
          d !! Z.to_nat (k - 1) = Some r /\
          count_review d review =
            @Normal exn _
              (<[Z.to_nat (k - 1) :=
                   if strict_eq_str (label review) "fake"
                   then bump_fake r else bump_genuine r]> d) /\
          forall d', count_review d review = @Normal exn _ d' ->
            length d' = 5%nat /\
            (fake_total d' + genuine_total d'
             = fake_total d + genuine_total d + 1)%nat /\
            forall i, i <> Z.to_nat (k - 1) -> d' !! i = d !! i)
  /\ (forall before after : list Review,
        Forall (fun other => rating other <> NaN) before ->
        Forall (fun other => rating other <> NaN) after ->
        exists data : list Row,
          calculateDistribution (before ++ review :: after) = @Normal exn _ data /\
          length data = 5%nat /\
          (fake_total data + genuine_total data
           = length (before ++ review :: after))%nat).
Proof.
  intros Hnum. split.
  - destruct (clampedRating_numeric review Hnum) as (k & Hk & Hrange).
    exists k. split; [exact Hk|]. split; [exact Hrange|].
    assert (Hinj : forall a b, of_Z a = of_Z b -> a = b).
    { intros a b [= H]. exact H. }
    split.
    { intros q Hq. apply Hinj. rewrite <- Hk. apply clampedRating_finite, Hq. }
    split.
    { intros Hr. apply Hinj. rewrite <- Hk. unfold clampedRating.
      rewrite Hr. reflexivity. }
    split.
    { intros Hr. apply Hinj. rewrite <- Hk. unfold clampedRating.
      rewrite Hr. reflexivity. }
    split.
    { intros j Hj Hr. apply Hinj. rewrite <- Hk.
      rewrite (clampedRating_finite review (inject_Z j) Hr), Qfloor_half.
      f_equal. lia. }
    intros d Hlen.
    destruct (count_review_numeric d review Hlen Hnum)
      as (i & r & Hi & Hidx & Hr & Hstep).
    rewrite Hk, (index_of_of_Z k Hrange) in Hidx. injection Hidx as <-.
    exists r. split; [exact Hr|]. split; [exact Hstep|].
    intros d' Hd'. rewrite Hstep in Hd'. injection Hd' as <-.
    split; [rewrite length_insert; exact Hlen|]. split.
    + set (r' := if strict_eq_str (label review) "fake"
                 then bump_fake r else bump_genuine r).
      pose proof (fake_total_insert d _ r r' Hr) as Hf.
      pose proof (genuine_total_insert d _ r r' Hr) as Hg.
      subst r'. destruct (strict_eq_str (label review) "fake");
        cbn [bump_fake bump_genuine fake genuine] in Hf, Hg; lia.
    + intros i Hne. apply list_lookup_insert_ne. congruence.
  - intros before after Hbefore Hafter.
    destruct (calculateDistribution_counts (before ++ review :: after))
      as (data & Hrun & Hlen & Hf & Hg).
    { apply Forall_app. split; [exact Hbefore|]. constructor; assumption. }
    exists data. split; [exact Hrun|]. split; [exact Hlen|].
    rewrite Hf, Hg. apply labelled_partition.
Qed.

End Clamping.

(* ===================================================================== *)
(** ** Labels other than 'fake'                                           *)
(* ===================================================================== *)

Section Labels.
Import JS RatingChart ResultsPage.

Lemma filteredReviews_label (f : string) (reviews : list Review) :
  String.eqb f "all" = false ->
  filteredReviews f reviews
  = List.filter (fun review => strict_eq_str (label review) f) reviews.
Proof.
  intros Hf. unfold filteredReviews. rewrite Hf. reflexivity.
Qed.

Lemma filteredReviews_all (reviews : list Review) :
  filteredReviews "all" reviews = reviews.
Proof.
  unfold filteredReviews. cbn [String.eqb Ascii.eqb Bool.eqb].
  induction reviews as [| review reviews IH]; [reflexivity|].
  cbn [List.filter]. rewrite IH. reflexivity.
Qed.

Lemma genuine_filter_le (reviews : list Review) :
  (length (filteredReviews "genuine" reviews) <= Spec.other_labelled reviews)%nat.
Proof.
  rewrite filteredReviews_label by reflexivity.
  induction reviews as [| review reviews IH]; [reflexivity|].
  rewrite other_labelled_cons. cbn [List.filter].
  destruct (label review) as [| | b | n | s | s |]; cbn; try lia.
  destruct (String.eqb_spec s "genuine") as [-> |]; cbn; lia.
Qed.

Lemma genuine_filter_lt (reviews : list Review) :
  Exists (fun review => strict_eq_str (label review) "fake" = false /\
                        strict_eq_str (label review) "genuine" = false) reviews ->
  (length (filteredReviews "genuine" reviews) < Spec.other_labelled reviews)%nat.
Proof.
  intros Hex. induction Hex as [review reviews [Hf Hg] | review reviews _ IH].
  - pose proof (genuine_filter_le reviews) as Hle.
    rewrite filteredReviews_label in * by reflexivity.
    rewrite other_labelled_cons. cbn [List.filter]. rewrite Hf, Hg. lia.
  - rewrite filteredReviews_label in * by reflexivity.
    rewrite other_labelled_cons. cbn [List.filter].
    destruct (strict_eq_str (label review) "genuine") eqn:Hg;
      destruct (strict_eq_str (label review) "fake") eqn:Hf; cbn [length]; try lia.
    exfalso. destruct (label review); cbn in Hg, Hf; try discriminate.
    apply String.eqb_eq in Hg, Hf. congruence.
Qed.

(** C9. Every review whose label is not exactly 'fake' (a missing or null
    label, or any other string) is counted in the genuine series of the
    rating chart, while the results page's filter keeps exact matches of
    'fake' or 'genuine' only; so against a genuine_count that counts the
    reviews labelled exactly 'genuine', the chart's genuine total is at
    least that count, and exceeds it as soon as one label lies outside
    {fake, genuine}. *)
Theorem non_fake_labels_count_as_genuine
    (reviews : list Review) (genuine_count : nat) :
  Forall (fun review => rating review <> NaN) reviews ->
  genuine_count
  = length (List.filter (fun review => strict_eq_str (label review) "genuine")
                        reviews) ->
  exists data : list Row,
    calculateDistribution reviews = @Normal exn _ data /\
    genuine_total data
    = length (List.filter (fun review =>
                             negb (strict_eq_str (label review) "fake")) reviews) /\
    fake_total data
    = length (List.filter (fun review =>
                             strict_eq_str (label review) "fake") reviews) /\
    (forall review, label review = Undefined \/ label review = Null ->
                    strict_eq_str (label review) "fake" = false) /\
    filteredReviews "fake" reviews
    = List.filter (fun review => strict_eq_str (label review) "fake") reviews /\
    filteredReviews "genuine" reviews
    = List.filter (fun review => strict_eq_str (label review) "genuine") reviews /\
    filteredReviews "all" reviews = reviews /\
    (genuine_count <= genuine_total data)%nat /\
    (Exists (fun review => strict_eq_str (label review) "fake" = false /\
                           strict_eq_str (label review) "genuine" = false) reviews ->
     (genuine_count < genuine_total data)%nat).
Proof.
  intros Hall Hcount.
  destruct (calculateDistribution_counts reviews Hall)
    as (data & Hrun & _ & Hf & Hg).
  exists data. split; [exact Hrun|].
  split; [exact Hg|]. split; [exact Hf|].
  split. { intros review [-> | ->]; reflexivity. }
  split. { apply filteredReviews_label. reflexivity. }
  split. { apply filteredReviews_label. reflexivity. }
  split. { apply filteredReviews_all. }
  rewrite Hg, Hcount.
  rewrite <- (filteredReviews_label "genuine" reviews eq_refl). split.
  - apply genuine_filter_le.
  - apply genuine_filter_lt.
Qed.

End Labels.

(* ===================================================================== *)
(** ** Grades and colour tiers                                            *)
(* ===================================================================== *)

Section Grades.
Import JS Pipeline ResultsPage.

(** One threshold of a tier table: below it the tier is settled, at or
    above it the next threshold decides. *)
Ltac tier H :=
  match goal with
  | |- context [if Qltb ?p ?t then _ else _] =>
      destruct (Qltb p t) eqn:H;
      [ left; repeat split; try assumption; apply Qltb_lt; exact H
      | apply Qltb_ge in H; right ]
  end.

Lemma grade_cases (p : Q) :
  ((p < 5)%Q /\ grade_of_percentage p = A) \/
  ((5 <= p)%Q /\ (p < 15)%Q /\ grade_of_percentage p = B) \/
  ((15 <= p)%Q /\ (p < 30)%Q /\ grade_of_percentage p = C) \/
  ((30 <= p)%Q /\ (p < 50)%Q /\ grade_of_percentage p = D) \/
  ((50 <= p)%Q /\ grade_of_percentage p = F).
Proof.
  unfold grade_of_percentage.
  tier H5. tier H15. tier H30. tier H50.
  split; [exact H50 | reflexivity].
Qed.

Lemma color_cases (p : Q) :
  ((p < 15)%Q /\ getFakePercentageColor (Finite p) = "text-green-600") \/
  ((15 <= p)%Q /\ (p < 30)%Q /\
   getFakePercentageColor (Finite p) = "text-yellow-600") \/
  ((30 <= p)%Q /\ (p < 50)%Q /\
   getFakePercentageColor (Finite p) = "text-orange-600") \/
  ((50 <= p)%Q /\ getFakePercentageColor (Finite p) = "text-red-600").
Proof.
  unfold getFakePercentageColor, of_Z. cbn [lt].
  change (inject_Z 15) with 15%Q. change (inject_Z 30) with 30%Q.
  change (inject_Z 50) with 50%Q.
  tier H15. tier H30. tier H50.
  split; [exact H50 | reflexivity].
Qed.

Lemma color_of_grade (p : Q) :
  getFakePercentageColor (Finite p) = Spec.severity (grade_of_percentage p).
Proof.
  unfold getFakePercentageColor, grade_of_percentage, of_Z. cbn [lt].
  change (inject_Z 15) with 15%Q. change (inject_Z 30) with 30%Q.
  change (inject_Z 50) with 50%Q.
  destruct (Qltb p 5) eqn:H5.
  - assert (H15 : Qltb p 15 = true).
    { apply Qltb_lt. apply Qltb_lt in H5.
      eapply Qlt_trans; [exact H5 | reflexivity]. }
    rewrite H15. reflexivity.
  - destruct (Qltb p 15); [reflexivity|].
    destruct (Qltb p 30); [reflexivity|].
    destruct (Qltb p 50); reflexivity.
Qed.

(** C1. The grade is a total function of the fake percentage with
    half-open ranges that include their lower number: below 5 is A, from 5
    up to 15 is B, from 15 up to 30 is C, from 30 up to 50 is D, 50 and
    above is F (so exactly 5, 15, 30 and 50 give B, C, D and F), for the
    percentage of every batch; the dashboard's colour tiers cut at the
    same 15, 30 and 50 with the same inclusion, one tier per grade with A
    and B sharing the first. *)
Theorem grade_boundaries :
  (forall p : Q,
      ((p < 5)%Q /\ grade_of_percentage p = A) \/
      ((5 <= p)%Q /\ (p < 15)%Q /\ grade_of_percentage p = B) \/
      ((15 <= p)%Q /\ (p < 30)%Q /\ grade_of_percentage p = C) \/
      ((30 <= p)%Q /\ (p < 50)%Q /\ grade_of_percentage p = D) \/
      ((50 <= p)%Q /\ grade_of_percentage p = F))
  /\ grade_of_percentage 5 = B
  /\ grade_of_percentage 15 = C
  /\ grade_of_percentage 30 = D
  /\ grade_of_percentage 50 = F
  /\ (forall (cfg : Config) (vs : list (RawReview * Verdict)),
        authenticity_grade (aggregate cfg vs)
        = match fake_percentage (aggregate cfg vs) with
          | Some p => grade_of_percentage p
          | None => NA
          end)
  /\ (forall p : Q,
        ((p < 15)%Q /\ getFakePercentageColor (Finite p) = "text-green-600") \/
        ((15 <= p)%Q /\ (p < 30)%Q /\
         getFakePercentageColor (Finite p) = "text-yellow-600") \/
        ((30 <= p)%Q /\ (p < 50)%Q /\
         getFakePercentageColor (Finite p) = "text-orange-600") \/
        ((50 <= p)%Q /\ getFakePercentageColor (Finite p) = "text-red-600"))
  /\ (forall p : Q,
        getFakePercentageColor (Finite p) = Spec.severity (grade_of_percentage p)).
Proof.
  split; [exact grade_cases|].
  do 4 (split; [reflexivity|]).
  split. { intros cfg vs. reflexivity. }
  split; [exact color_cases | exact color_of_grade].
Qed.

End Grades.

(* ===================================================================== *)
(** ** The empty batch and the grade badge                                *)
(* ===================================================================== *)

Section EmptyBatch.
Import JS Pipeline.

(** The empty batch is a result, with nothing to divide by. *)
Lemma empty_batch_result (cfg : Config) (artifact : Artifact) :
  let res := analyze cfg artifact [] in
  total_reviews (metrics res) = 0%nat /\
  fake_percentage (metrics res) = None /\
  original_rating (metrics res) = None /\
  adjusted_rating (metrics res) = None /\
  grade_string (authenticity_grade (metrics res)) = "N/A" /\
  summary res = NoReviewsAvailable.
Proof. cbn. repeat split; reflexivity. Qed.

Lemma GradeBadge_not_available (size : option string) :
  GradeBadge.colorClass (GradeBadge.GradeBadge "N/A" size) = Str "bg-gray-400" /\
  GradeBadge.children (GradeBadge.GradeBadge "N/A" size) = "N/A".
Proof. split; reflexivity. Qed.

Lemma gradeColors_own (grade : string) :
  grade <> "A" -> grade <> "B" -> grade <> "C" -> grade <> "D" ->
  grade <> "F" -> grade <> "N/A" ->
  GradeBadge.gradeColors !! grade = None.
Proof.
  intros. unfold GradeBadge.gradeColors.
  repeat (rewrite lookup_insert_ne by congruence).
  apply lookup_singleton_ne. congruence.
Qed.

(** A grade that names neither a key of the table nor a property every
    object inherits gets the neutral colour. *)
Lemma GradeBadge_unrecognized (grade : string) (size : option string) :
  grade <> "A" -> grade <> "B" -> grade <> "C" -> grade <> "D" ->
  grade <> "F" -> grade <> "N/A" ->
  inherited grade = false ->
  GradeBadge.colorClass (GradeBadge.GradeBadge grade size) = Str "bg-gray-400".
Proof.
  intros HA HB HC HD HF HN Hinh. unfold GradeBadge.GradeBadge.
  cbn [GradeBadge.colorClass]. unfold get at 1.
  rewrite gradeColors_own by assumption. rewrite Hinh. reflexivity.
Qed.

(** C3. The grade string "constructor" is no key of the colour table, yet
    the lookup finds the constructor every object inherits; that value is
    truthy, the fallback to the "N/A" colour is skipped, and the badge is
    not the neutral one. *)
Theorem GradeBadge_inherited_name_not_neutral :
  GradeBadge.gradeColors !! "constructor" = None /\
  GradeBadge.colorClass (GradeBadge.GradeBadge "constructor" None)
  = Builtin "constructor" /\
  GradeBadge.colorClass (GradeBadge.GradeBadge "constructor" None)
  <> GradeBadge.colorClass (GradeBadge.GradeBadge "N/A" None).
Proof.
  split; [|split].
  - apply gradeColors_own; discriminate.
  - unfold GradeBadge.GradeBadge. cbn [GradeBadge.colorClass]. unfold get at 1.
    rewrite gradeColors_own by discriminate. reflexivity.
  - unfold GradeBadge.GradeBadge. cbn [GradeBadge.colorClass]. unfold get at 1.
    rewrite gradeColors_own by discriminate.
    destruct (GradeBadge_not_available None) as [HNA _].
    unfold GradeBadge.GradeBadge in HNA. cbn [GradeBadge.colorClass] in HNA.
    cbn [inherited existsb Object_prototype_keys]. cbn. discriminate.
Qed.

End EmptyBatch.

(* ===================================================================== *)
(** ** The confidence percentage                                          *)
(* ===================================================================== *)

Section Confidence.
Import JS RatingChart ReviewCard.

Lemma Qfloor_between (x lo hi : Q) :
  (lo <= x)%Q -> (x <= hi)%Q -> Qfloor lo <= Qfloor x <= Qfloor hi.
Proof.
  intros Hlo Hhi. split; apply Qfloor_resp_le; assumption.
Qed.

(** C8. When the confidence is a number between 0 and 1, the percentage
    shown on the review card, Math.round(confidence * 100), is an integer
    between 0 and 100; the product is the exact one rounded to the nearest
    double. *)
Theorem confidence_percent_in_range (fl : Q -> Q) (review : Review) (c : Q) :
  Spec.rounds_to_nearest fl ->
  confidence review = Finite c ->
  (0 <= c)%Q -> (c <= 1)%Q ->
  exists n : Z, confidencePercent fl review = of_Z n /\ 0 <= n <= 100.
Proof.
  intros (Hmono & H0 & H100) Hc Hlo Hhi.
  exists (Qfloor (fl (c * 100)%Q + (1 # 2))). split.
  - unfold confidencePercent. rewrite Hc. reflexivity.
  - assert (Hx0 : (0 <= fl (c * 100)%Q)%Q).
    { apply Qle_trans with (fl 0%Q).
      - apply Qle_lteq. right. symmetry. exact H0.
      - apply Hmono. lra. }
    assert (Hx1 : (fl (c * 100)%Q <= 100)%Q).
    { apply Qle_trans with (fl 100%Q).
      - apply Hmono. lra.
      - apply Qle_lteq. right. exact H100. }
    exact (Qfloor_between (fl (c * 100)%Q + (1 # 2)) 0 (100 + (1 # 2))
             ltac:(lra) ltac:(lra)).
Qed.

End Confidence.

(* ===================================================================== *)
(** ** The API client                                                     *)
(* ===================================================================== *)

Section ApiFacts.
Import JS Api.

(** C10. checkHealth never throws: whatever the request does, it returns
    a value, the response's data when the request succeeds and the object
    with status 'unhealthy' when it fails; analyzeProduct and
    getDemoAnalysis return the data on success and turn every failure of
    the request into a thrown Error. *)
Theorem checkHealth_never_throws :
  (forall s : settled,
      exists v : option json,
        checkHealth s = @Normal exn _ v /\
        v = match s with
            | Fulfilled r => data r
            | Rejected _ => Some unhealthy
            end)
  /\ unhealthy = JObj [("status", JStr "unhealthy")]
  /\ (forall r : Response,
        analyzeProduct (Fulfilled r) = @Normal exn _ (data r) /\
        getDemoAnalysis (Fulfilled r) = @Normal exn _ (data r))
  /\ (forall e : AxiosError,
        (exists message : value, analyzeProduct (Rejected e) = Throw (Error message)) /\
        getDemoAnalysis (Rejected e) = Throw (Error (Str "Failed to load demo data"))).
Proof.
  split; [|split; [reflexivity|split]].
  - intros [r | e]; eexists; split; reflexivity.
  - intros r. split; reflexivity.
  - intros e. split; [|reflexivity].
    unfold analyzeProduct. cbn [await bind try_catch].
    destruct (response e) as [r|]; [eexists; reflexivity|].
    destruct (request e); eexists; reflexivity.
Qed.

End ApiFacts.

(* ===================================================================== *)
(** ** The hybrid scorer                                                  *)
(* ===================================================================== *)

Section HybridScorer.
Import Pipeline.

Lemma clamp01_bounds (q : Q) : (0 <= clamp01 q /\ clamp01 q <= 1)%Q.
Proof.
  unfold clamp01.
  destruct (Qle_bool q 0) eqn:H0; [split; lra|].
  destruct (Qle_bool 1 q) eqn:H1; [split; lra|].
  assert (~ (q <= 0)%Q) by (rewrite <- Qle_bool_iff; congruence).
  assert (~ (1 <= q)%Q) by (rewrite <- Qle_bool_iff; congruence).
  split; lra.
Qed.

Lemma Qsum_cons (x : Q) (l : list Q) : Qsum (x :: l) = (x + Qsum l)%Q.
Proof. reflexivity. Qed.

(** A sum of [weight * score] terms lies between 0 and the sum of the
    weights when the weights are non-negative and the scores are in [0,1]. *)
Lemma weighted_sum_bounds (sources : list (Q * Q)) :
  Forall (fun ws => 0 <= fst ws /\ 0 <= snd ws /\ snd ws <= 1)%Q sources ->
  (0 <= Qsum (map (fun ws => fst ws * snd ws) sources)
   /\ Qsum (map (fun ws => fst ws * snd ws) sources) <= weight_total sources)%Q.
Proof.
  unfold weight_total.
  induction 1 as [| [w s] sources (Hw & Hs0 & Hs1) _ IH]; cbn [map fst snd].
  - cbn. split; lra.
  - rewrite !Qsum_cons. cbn [fst snd] in *. destruct IH as [IH0 IH1].
    assert (0 <= w * s)%Q by (apply Qmult_le_0_compat; assumption).
    assert (w * s <= w)%Q by nra.
    split; lra.
Qed.

Lemma Qdiv_unit_interval (n d : Q) :
  (0 <= n)%Q -> (n <= d)%Q -> (0 <= n / d /\ n / d <= 1)%Q.
Proof.
  intros Hn Hd. destruct (Qlt_le_dec 0 d) as [Hpos | Hzero].
  - split.
    + apply Qle_shift_div_l; [exact Hpos | lra].
    + apply Qle_shift_div_r; [exact Hpos | lra].
  - assert (Hd0 : (d == 0)%Q) by lra.
    assert (Hq : (n / d == 0)%Q).
    { unfold Qdiv. rewrite Hd0. cbn [Qinv Qnum]. ring. }
    rewrite Hq. split; lra.
Qed.

Lemma weighted_average_bounds (sources : list (Q * Q)) :
  Forall (fun ws => 0 <= fst ws /\ 0 <= snd ws /\ snd ws <= 1)%Q sources ->
  (0 <= weighted_average sources /\ weighted_average sources <= 1)%Q.
Proof.
  intros Hall. destruct (weighted_sum_bounds sources Hall) as [H0 H1].
  apply Qdiv_unit_interval; assumption.
Qed.

Lemma decide_label_fake (cfg : Config) (c : Q) :
  decide_label cfg c = fake <-> (decision_threshold cfg <= c)%Q.
Proof.
  unfold decide_label. rewrite <- Qle_bool_iff.
  destruct (Qle_bool (decision_threshold cfg) c); split; congruence.
Qed.

Lemma decide_label_genuine (cfg : Config) (c : Q) :
  decide_label cfg c = genuine <-> (c < decision_threshold cfg)%Q.
Proof.
  unfold decide_label.
  destruct (Qle_bool (decision_threshold cfg) c) eqn:E.
  - apply Qle_bool_iff in E. split; [discriminate | intros; lra].
  - split; [intros _ | reflexivity].
    apply Qnot_le_lt. rewrite <- Qle_bool_iff. congruence.
Qed.

Lemma available_bounded (cfg : Config) (artifact : Artifact) (fv : FeatureVector) :
  valid_weights cfg -> probability artifact ->
  Forall (fun ws => 0 <= fst ws /\ 0 <= snd ws /\ snd ws <= 1)%Q
         (available cfg (rule_score cfg fv) (model_score artifact fv)).
Proof.
  intros (Hr & Hm & _) Hp.
  pose proof (clamp01_bounds (Qsum (map weight (fired cfg fv)))) as [Hc0 Hc1].
  unfold available, model_score. destruct artifact as [p|].
  - destruct (Hp p eq_refl (tokens fv)) as [Hp0 Hp1].
    repeat constructor; cbn; assumption.
  - repeat constructor; cbn; try assumption. lra.
Qed.

Lemma judge_all_each (cfg : Config) (artifact : Artifact)
    (batch : list RawReview) (P : RawReview * Verdict -> Prop) :
  (forall raw ctx, P (raw, judge cfg artifact raw ctx)) ->
  Forall P (judge_all cfg artifact batch).
Proof.
  intros HP. unfold judge_all. apply Forall_map, Forall_forall.
  intros p _. apply HP.
Qed.

(** C4. For every review the pipeline processes, with blend weights that
    are non-negative and sum to 1 and a model that returns probabilities
    (or is missing), the verdict's confidence lies in [0,1], its label is
    fake exactly when the confidence reaches the decision threshold, and
    genuine otherwise, that is exactly when it stays below. *)
Theorem verdict_confidence_and_label
    (cfg : Config) (artifact : Artifact) (batch : list RawReview) :
  valid_weights cfg ->
  probability artifact ->
  Forall (fun p : RawReview * Verdict =>
            let v := snd p in
            (0 <= confidence v)%Q /\ (confidence v <= 1)%Q /\
            (label v = fake <-> (decision_threshold cfg <= confidence v)%Q) /\
            (label v = genuine <-> (confidence v < decision_threshold cfg)%Q))
         (verdicts (analyze cfg artifact batch))
  /\ length (verdicts (analyze cfg artifact batch)) = length batch.
Proof.
  intros Hw Hp. split.
  - cbn [analyze verdicts]. apply judge_all_each. intros raw ctx.
    cbn [snd]. unfold judge, combine. cbn [confidence label].
    set (fv := extract cfg raw ctx).
    destruct (weighted_average_bounds _ (available_bounded cfg artifact fv Hw Hp))
      as [H0 H1].
    unfold blend. repeat split; try assumption;
      try apply decide_label_fake; try apply decide_label_genuine.
  - cbn [analyze verdicts]. unfold judge_all. rewrite length_map.
    clear. induction batch as [| x l IH]; [reflexivity|].
    cbn [splits length]. rewrite length_map, IH. reflexivity.
Qed.

Lemma degraded_average (w s : Q) :
  (w == 1)%Q -> (weighted_average [(w, s)] == s)%Q.
Proof.
  intros Hw. unfold weighted_average, weight_total. cbn [map fst snd].
  unfold Qsum. cbn [foldr]. field. lra.
Qed.

(** C5. In degraded mode (no model artifact), with non-negative weights
    that sum to 1, whatever the rule weight (zero included), the
    confidence of every review of the batch is its rule sub-score alone:
    the model's weight goes to the rule score, which is then the one
    source the blend renormalizes over.  The blend that keeps the rule
    weight and counts the model as zero never exceeds that confidence and
    is strictly below it whenever the model had weight and the rule score
    is not zero. *)
Theorem degraded_confidence_is_rule_score
    (cfg : Config) (batch : list RawReview) :
  valid_weights cfg ->
  degraded (analyze cfg None batch) = true /\
  Forall2 (fun (p : RawReview * Verdict) (s : RawReview * list RawReview) =>
             let r := rule_score cfg (extract cfg (fst s) (map body (snd s))) in
             let v := snd p in
             fst p = fst s /\
             (confidence v == value r)%Q /\
             (confidence v == (w_rule cfg + w_model cfg) * value r)%Q /\
             (zero_weighted_blend cfg r <= confidence v)%Q /\
             ((0 < w_model cfg)%Q -> (0 < value r)%Q ->
              (zero_weighted_blend cfg r < confidence v)%Q))
          (verdicts (analyze cfg None batch)) (splits batch).
Proof.
  intros (Hr & Hm & Hsum). split; [reflexivity|].
  cbn [analyze verdicts]. unfold judge_all.
  apply Forall2_fmap_l. apply Forall_Forall2_diag, Forall_forall.
  intros [raw rest] _. unfold compose, judge, combine, blend.
  cbv beta zeta. cbn [fst snd confidence model_score available].
  split; [reflexivity|].
  remember (extract cfg raw (map body rest)) as fv eqn:Hfv.
  remember (rule_score cfg fv) as r eqn:Hr0.
  pose proof (degraded_average (w_rule cfg + w_model cfg) (value r) Hsum)
    as Hdeg.
  assert (Hc : (0 <= value r /\ value r <= 1)%Q).
  { subst r. apply clamp01_bounds. }
  destruct Hc as [Hc0 Hc1]. clear Hr0 Hfv.
  unfold zero_weighted_blend.
  split; [exact Hdeg|]. split; [rewrite Hdeg, Hsum; ring|].
  assert (Hone : (w_rule cfg == 1 - w_model cfg)%Q) by lra.
  split.
  - rewrite Hdeg. rewrite Hone. nra.
  - intros Hm' Hr'. rewrite Hdeg. rewrite Hone. nra.
Qed.

End HybridScorer.

(* ===================================================================== *)
(** ** Determinism and scan order                                         *)
(* ===================================================================== *)

Section ScanOrder.
Import Pipeline.






Lemma filter_Permutation_bool {X : Type} (f : X -> bool) (l l' : list X) :
  Permutation l l' -> Permutation (List.filter f l) (List.filter f l').
Proof.
  induction 1 as [| x l l' _ IH | x y l | l l' l'' _ IH1 _ IH2]; cbn.
  - constructor.
  - destruct (f x); [constructor|]; exact IH.
  - destruct (f x), (f y); try reflexivity. apply perm_swap.
  - etransitivity; eassumption.
Qed.





End ScanOrder.

(* ===================================================================== *)
(** ** The statements at the sample inputs                                *)
(* ===================================================================== *)

Section Witnesses.
Import JS.

Lemma sample_reviews_numeric :
  Forall (fun review => RatingChart.rating review <> NaN) Sample.reviews.
Proof. repeat constructor; discriminate. Qed.

Lemma fake_plus_genuine_is_total_witness :
  Forall (fun review => RatingChart.rating review <> NaN) Sample.reviews /\
  exists data : list RatingChart.Row,
    RatingChart.calculateDistribution Sample.reviews = @Normal exn _ data /\
    (RatingChart.fake_total data + RatingChart.genuine_total data = 5)%nat.
Proof.
  split; [exact sample_reviews_numeric|].
  destruct fake_plus_genuine_is_total as [_ Hchart].
  destruct (Hchart Sample.reviews sample_reviews_numeric)
    as (data & Hrun & _ & _ & Hsum).
  exists data. split; [exact Hrun | exact Hsum].
Defined.

Lemma rating_clamped_into_one_bucket_witness :
  RatingChart.rating Sample.out_of_range <> NaN /\
  exists k : Z,
    RatingChart.clampedRating Sample.out_of_range = of_Z k /\ 1 <= k <= 5.
Proof.
  assert (H : RatingChart.rating Sample.out_of_range <> NaN) by discriminate.
  split; [exact H|].
  destruct (rating_clamped_into_one_bucket Sample.out_of_range H)
    as [(k & Hk & Hrange & _) _].
  exists k. split; [exact Hk | exact Hrange].
Defined.

Lemma non_fake_labels_count_as_genuine_witness :
  Forall (fun review => RatingChart.rating review <> NaN) Sample.reviews /\
  exists data : list RatingChart.Row,
    RatingChart.calculateDistribution Sample.reviews = @Normal exn _ data /\
    length (ResultsPage.filteredReviews "genuine" Sample.reviews) = 1%nat /\
    (1 < RatingChart.genuine_total data)%nat.
Proof.
  split; [exact sample_reviews_numeric|].
  destruct (non_fake_labels_count_as_genuine Sample.reviews 1
              sample_reviews_numeric eq_refl)
    as (data & Hrun & _ & _ & _ & _ & _ & _ & _ & Hlt).
  exists data. split; [exact Hrun|]. split; [reflexivity|]. apply Hlt.
  apply Exists_cons_tl, Exists_cons_tl, Exists_cons_hd. split; reflexivity.
Defined.

Lemma exact_rounds_to_nearest : Spec.rounds_to_nearest Sample.exact.
Proof.
  unfold Spec.rounds_to_nearest, Sample.exact.
  split; [intros x y H; exact H | split; reflexivity].
Qed.

Lemma confidence_percent_in_range_witness :
  Spec.rounds_to_nearest Sample.exact /\
  exists n : Z,
    ReviewCard.confidencePercent Sample.exact Sample.out_of_range = of_Z n /\
    0 <= n <= 100.
Proof.
  split; [exact exact_rounds_to_nearest|].
  apply (confidence_percent_in_range Sample.exact Sample.out_of_range (1 # 10)).
  - exact exact_rounds_to_nearest.
  - reflexivity.
  - vm_compute. discriminate.
  - vm_compute. discriminate.
Defined.

Lemma sample_weights : Pipeline.valid_weights Sample.cfg.
Proof.
  unfold Pipeline.valid_weights. cbn. repeat split; vm_compute; congruence.
Qed.

Lemma sample_probability : Pipeline.probability Sample.artifact.
Proof.
  intros p [= <-] toks. split; vm_compute; discriminate.
Qed.

Lemma verdict_confidence_and_label_witness :
  Pipeline.valid_weights Sample.cfg /\ Pipeline.probability Sample.artifact /\
  Forall (fun p : Pipeline.RawReview * Pipeline.Verdict =>
            (0 <= Pipeline.confidence (snd p))%Q /\
            (Pipeline.confidence (snd p) <= 1)%Q)
         (Pipeline.verdicts
            (Pipeline.analyze Sample.cfg Sample.artifact Sample.batch)).
Proof.
  split; [exact sample_weights|]. split; [exact sample_probability|].
  destruct (verdict_confidence_and_label Sample.cfg Sample.artifact Sample.batch
              sample_weights sample_probability) as [Hall _].
  eapply Forall_impl; [exact Hall|].
  intros p (H0 & H1 & _). split; assumption.
Defined.

Lemma model_only_weights : Pipeline.valid_weights Sample.model_only.
Proof.
  unfold Pipeline.valid_weights. cbn. repeat split; vm_compute; congruence.
Qed.

Lemma degraded_confidence_is_rule_score_witness :
  Pipeline.valid_weights Sample.model_only /\
  (Pipeline.w_rule Sample.model_only == 0)%Q /\
  Pipeline.degraded (Pipeline.analyze Sample.model_only None Sample.batch)
  = true /\
  Forall2 (fun (p : Pipeline.RawReview * Pipeline.Verdict)
               (s : Pipeline.RawReview * list Pipeline.RawReview) =>
             (Pipeline.confidence (snd p)
              == Pipeline.value
                   (Pipeline.rule_score Sample.model_only
                      (Pipeline.extract Sample.model_only (fst s)
                         (map Pipeline.body (snd s)))))%Q)
          (Pipeline.verdicts
             (Pipeline.analyze Sample.model_only None Sample.batch))
          (Pipeline.splits Sample.batch).
Proof.
  split; [exact model_only_weights|]. split; [reflexivity|].
  destruct (degraded_confidence_is_rule_score Sample.model_only Sample.batch
              model_only_weights) as [Hflag Hall].
  split; [exact Hflag|].
  eapply Forall2_impl; [exact Hall|].
  intros p s (_ & Heq & _). exact Heq.
Defined.


End Witnesses.

(* ===================================================================== *)
(** ** The pipeline on the sample batch                                   *)
(* ===================================================================== *)

Section SampleRun.
Import Pipeline.

(** The two identical unverified five-star reviews are flagged as
    duplicates of each other and labelled fake; the verified one is not. *)
Example sample_labels :
  map (fun p => label (snd p)) (judge_all Sample.cfg Sample.artifact Sample.batch)
  = [fake; genuine; fake].
Proof. vm_compute. reflexivity. Qed.

Example sample_grade :
  authenticity_grade (metrics (analyze Sample.cfg Sample.artifact Sample.batch)) = F
  /\ fake_count (metrics (analyze Sample.cfg Sample.artifact Sample.batch)) = 2%nat.
Proof. vm_compute. split; reflexivity. Qed.

Example sample_distribution :
  RatingChart.calculateDistribution Sample.reviews
  = @JS.Normal JS.exn _
      [ RatingChart.mkRow "1 Star" 2 0; RatingChart.mkRow "2 Stars" 0 0;
        RatingChart.mkRow "3 Stars" 1 0; RatingChart.mkRow "4 Stars" 0 0;
        RatingChart.mkRow "5 Stars" 1 1 ].
Proof. vm_compute. reflexivity. Qed.

(** A review without a rating: the bucket lookup fails. *)
Example missing_rating_throws :
  RatingChart.calculateDistribution
    [RatingChart.mkReview JS.NaN (JS.Str "fake") (JS.Finite 1)]
  = JS.Throw JS.TypeError.
Proof. reflexivity. Qed.

End SampleRun.

(* ===================================================================== *)
(** ** The rating distribution, bucket by bucket                          *)
(* ===================================================================== *)

Section Buckets.
Import JS RatingChart.

Lemma Tally_count_cons (i : nat) (b : bool) (review : Review) (reviews : list Review) :
  Tally.count i b (review :: reviews)
  = ((if Tally.lands i b review then 1 else 0) + Tally.count i b reviews)%nat.
Proof.
  unfold Tally.count. cbn [List.filter].
  destruct (Tally.lands i b review); reflexivity.
Qed.

Lemma Tally_add_nil (d : list Row) : Tally.add d [] = d.
Proof.
  unfold Tally.add. cbn.
  rewrite <- (imap_ext (fun _ r => r)).
  - induction d as [| r d IH]; [reflexivity|]. cbn. f_equal.
    rewrite <- IH at 2. apply imap_ext. reflexivity.
  - intros i [n g f] _. cbn. f_equal; lia.
Qed.

Lemma Tally_add_five (r0 r1 r2 r3 r4 : Row) (l : list Review) :
  Tally.add [r0; r1; r2; r3; r4] l
  = [ mkRow (row_rating r0) (genuine r0 + Tally.count 0 false l)
            (fake r0 + Tally.count 0 true l);
      mkRow (row_rating r1) (genuine r1 + Tally.count 1 false l)
            (fake r1 + Tally.count 1 true l);
      mkRow (row_rating r2) (genuine r2 + Tally.count 2 false l)
            (fake r2 + Tally.count 2 true l);
      mkRow (row_rating r3) (genuine r3 + Tally.count 3 false l)
            (fake r3 + Tally.count 3 true l);
      mkRow (row_rating r4) (genuine r4 + Tally.count 4 false l)
            (fake r4 + Tally.count 4 true l) ].
Proof. reflexivity. Qed.

(** Counting one review into the rows, then the rest, counts them all. *)
Lemma Tally_add_step (d d' : list Row) (review : Review) (reviews : list Review) :
  length d = 5%nat ->
  count_review d review = @Normal exn _ d' ->
  Tally.add d' reviews = Tally.add d (review :: reviews).
Proof.
  intros Hlen Hstep.
  destruct d as [| r0 [| r1 [| r2 [| r3 [| r4 [| ? ?]]]]]]; try discriminate Hlen.
  unfold count_review in Hstep.
  destruct (index_of (clampedRating review)) as [i|] eqn:Hi; [|discriminate].
  pose proof (index_of_bound _ _ Hi) as Hb.
  rewrite (Tally_add_five r0 r1 r2 r3 r4), !Tally_count_cons.
  unfold Tally.lands. rewrite Hi.
  destruct (strict_eq_str (label review) "fake") eqn:Hf;
    destruct i as [| [| [| [| [| i]]]]]; try lia;
    cbn in Hstep; injection Hstep as <-;
    rewrite Tally_add_five; cbn [Nat.eqb andb Bool.eqb bump_fake bump_genuine
                                 row_rating genuine fake];
    repeat (f_equal; try lia).
Qed.

Lemma forEach_tally (reviews : list Review) (d : list Row) :
  length d = 5%nat ->
  Forall (fun review => rating review <> NaN) reviews ->
  forEach count_review reviews d = @Normal exn _ (Tally.add d reviews).
Proof.
  intros Hlen Hall. revert d Hlen.
  induction Hall as [| review reviews Hnum _ IH]; intros d Hlen.
  - cbn. rewrite Tally_add_nil. reflexivity.
  - destruct (count_review_numeric d review Hlen Hnum)
      as (i & r & _ & _ & _ & Hstep).
    cbn [forEach]. rewrite Hstep. cbn [bind].
    rewrite IH by (rewrite length_insert; exact Hlen).
    f_equal. apply (Tally_add_step d); assumption.
Qed.

End Buckets.

Section BucketTheorems.
Import JS RatingChart.

Lemma clampedRating_NaN (review : Review) :
  rating review = NaN -> clampedRating review = NaN.
Proof. intros H. unfold clampedRating. rewrite H. reflexivity. Qed.

Lemma index_of_clamped (review : Review) (j : nat) :
  index_of (clampedRating review) = Some j <->
  clampedRating review = of_Z (Z.of_nat j + 1) /\ (j < 5)%nat.
Proof.
  split.
  - intros Hj.
    assert (Hnum : rating review <> NaN).
    { intros HN. rewrite (clampedRating_NaN review HN) in Hj. discriminate. }
    destruct (clampedRating_numeric review Hnum) as (k & Hk & Hrange).
    rewrite Hk, (index_of_of_Z k Hrange) in Hj. injection Hj as <-.
    split; [|lia]. rewrite Hk. f_equal. lia.
  - intros [Hc Hlt]. rewrite Hc, index_of_of_Z by lia. f_equal. lia.
Qed.

Lemma calculateDistribution_tally (reviews : list Review) :
  Forall (fun review => rating review <> NaN) reviews ->
  calculateDistribution reviews = @Normal exn _ (Tally.tally reviews).
Proof. intros Hall. exact (forEach_tally reviews distribution0 eq_refl Hall). Qed.

(** X1. When every rating is a number, the chart data are the five rows
    "1 Star" ... "5 Stars" in that order, and each row's genuine and fake
    counts are the numbers of reviews whose clamped rating is that row's
    star count and whose label is not, respectively is, exactly 'fake'. *)
Theorem distribution_counts_each_bucket (reviews : list Review) :
  Forall (fun review => rating review <> NaN) reviews ->
  calculateDistribution reviews
  = @Normal exn _
      [ mkRow "1 Star" (Tally.count 0 false reviews) (Tally.count 0 true reviews);
        mkRow "2 Stars" (Tally.count 1 false reviews) (Tally.count 1 true reviews);
        mkRow "3 Stars" (Tally.count 2 false reviews) (Tally.count 2 true reviews);
        mkRow "4 Stars" (Tally.count 3 false reviews) (Tally.count 3 true reviews);
        mkRow "5 Stars" (Tally.count 4 false reviews) (Tally.count 4 true reviews) ]
  /\ forall (i : nat) (b : bool) (review : Review),
       Tally.lands i b review = true <->
       clampedRating review = of_Z (Z.of_nat i + 1) /\ (i < 5)%nat /\
       strict_eq_str (label review) "fake" = b.
Proof.
  intros Hall. split.
  - rewrite (calculateDistribution_tally reviews Hall). reflexivity.
  - intros i b review. unfold Tally.lands. split.
    + destruct (index_of (clampedRating review)) as [j|] eqn:Hj; [|discriminate].
      intros H. apply andb_true_iff in H as [Hij Hb].
      apply Nat.eqb_eq in Hij. subst j. apply Bool.eqb_prop in Hb.
      apply index_of_clamped in Hj as [Hc Hlt]. repeat split; assumption.
    + intros (Hc & Hlt & Hb).
      rewrite (proj2 (index_of_clamped review i) (conj Hc Hlt)).
      rewrite Nat.eqb_refl, Hb. destruct b; reflexivity.
Qed.

Lemma numeric_or_missing (reviews : list Review) :
  Forall (fun review => rating review <> NaN) reviews \/
  Exists (fun review => rating review = NaN) reviews.
Proof.
  induction reviews as [| review reviews [IH | IH]].
  - left. constructor.
  - destruct (rating review) eqn:Hr.
    4: { right. apply Exists_cons_hd. exact Hr. }
    all: left; constructor; [rewrite Hr; discriminate | exact IH].
  - right. apply Exists_cons_tl. exact IH.
Qed.

Lemma forEach_missing_rating (reviews : list Review) (d : list Row) :
  length d = 5%nat ->
  Exists (fun review => rating review = NaN) reviews ->
  forEach count_review reviews d = Throw TypeError.
Proof.
  intros Hlen Hex. revert d Hlen.
  induction reviews as [| review reviews IH]; intros d Hlen.
  - inversion Hex.
  - cbn [forEach]. destruct (rating review) eqn:Hr.
    4: { unfold count_review. rewrite (clampedRating_NaN review Hr). reflexivity. }
    all: assert (Hnum : rating review <> NaN) by (rewrite Hr; discriminate);
      destruct (count_review_numeric d review Hlen Hnum)
        as (i & r & _ & _ & _ & Hstep);
      rewrite Hstep; cbn [bind]; apply IH;
      [ inversion Hex as [? ? Hhd | ? ? Htl]; subst;
        [ congruence | exact Htl ]
      | rewrite length_insert; exact Hlen ].
Qed.

Lemma calculateDistribution_missing (reviews : list Review) :
  Exists (fun review => rating review = NaN) reviews ->
  calculateDistribution reviews = Throw TypeError.
Proof. intros Hex. exact (forEach_missing_rating reviews distribution0 eq_refl Hex). Qed.

(** X2. The chart computation fails exactly when some review has no
    numeric rating: it throws a TypeError if and only if a rating is NaN,
    and returns data if and only if none is; it ends in no other way. *)
Theorem distribution_throws_iff_rating_missing (reviews : list Review) :
  (calculateDistribution reviews = Throw TypeError <->
   Exists (fun review => rating review = NaN) reviews)
  /\ ((exists data, calculateDistribution reviews = @Normal exn _ data) <->
      Forall (fun review => rating review <> NaN) reviews).
Proof.
  destruct (numeric_or_missing reviews) as [Hall | Hex].
  - pose proof (calculateDistribution_tally reviews Hall) as Hrun.
    split; split.
    + rewrite Hrun. discriminate.
    + intros Hex. exfalso. apply Exists_exists in Hex as (x & Hin & Hx).
      rewrite Forall_forall in Hall. exact (Hall x Hin Hx).
    + intros _. exact Hall.
    + intros _. eexists. exact Hrun.
  - pose proof (calculateDistribution_missing reviews Hex) as Hrun.
    split; split.
    + intros _. exact Hex.
    + intros _. exact Hrun.
    + intros [data Hd]. rewrite Hrun in Hd. discriminate.
    + intros Hall. exfalso. apply Exists_exists in Hex as (x & Hin & Hx).
      rewrite Forall_forall in Hall. exact (Hall x Hin Hx).
Qed.

Lemma Tally_count_Permutation (i : nat) (b : bool) (l l' : list Review) :
  Permutation l l' -> Tally.count i b l = Tally.count i b l'.
Proof.
  intros Hperm. unfold Tally.count.
  apply Permutation_length, filter_Permutation_bool, Hperm.
Qed.

(** X3. The chart data do not depend on the order of the reviews: two
    lists with the same reviews in another order give the same rows, or
    both fail. *)
Theorem distribution_order_independent (reviews reviews' : list Review) :
  Permutation reviews reviews' ->
  calculateDistribution reviews = calculateDistribution reviews'.
Proof.
  intros Hperm. destruct (numeric_or_missing reviews) as [Hall | Hex].
  - assert (Hall' : Forall (fun review => rating review <> NaN) reviews').
    { rewrite <- Hperm. exact Hall. }
    rewrite (calculateDistribution_tally reviews Hall).
    rewrite (calculateDistribution_tally reviews' Hall').
    unfold Tally.tally, distribution0. rewrite !Tally_add_five.
    now rewrite !(Tally_count_Permutation _ _ reviews reviews' Hperm).
  - assert (Hex' : Exists (fun review => rating review = NaN) reviews').
    { rewrite <- Hperm. exact Hex. }
    rewrite (calculateDistribution_missing reviews Hex).
    rewrite (calculateDistribution_missing reviews' Hex'). reflexivity.
Qed.

End BucketTheorems.

(* ===================================================================== *)
(** ** The star row of a review card                                      *)
(* ===================================================================== *)

Section Stars.
Import JS StarRow.

Lemma below_ceiling (i : Z) (q : Q) :
  Qltb (inject_Z i) q = (i <? Qceiling q).
Proof.
  destruct (Z.ltb_spec i (Qceiling q)) as [Hlt | Hge].
  - apply Qltb_lt. apply Qle_lt_trans with (inject_Z (Qceiling q - 1)).
    + rewrite <- Zle_Qle. lia.
    + apply Qceiling_lt.
  - apply Qltb_ge. apply Qle_trans with (inject_Z (Qceiling q)).
    + apply Qle_ceiling.
    + rewrite <- Zle_Qle. exact Hge.
Qed.

Lemma stars_finite (q : Q) :
  stars (Finite q) = map (fun i => i <? Qceiling q) [0; 1; 2; 3; 4].
Proof.
  unfold stars. apply map_ext. intros i. apply below_ceiling.
Qed.

Lemma stars_by_ceiling (c : Z) :
  map (fun i => i <? c) [0; 1; 2; 3; 4]
  = replicate (Z.to_nat (Z.max 0 (Z.min 5 c))) true
    ++ replicate (5 - Z.to_nat (Z.max 0 (Z.min 5 c))) false.
Proof.
  assert (Hc : c <= 0 \/ c = 1 \/ c = 2 \/ c = 3 \/ c = 4 \/ 5 <= c) by lia.
  destruct Hc as [H | [-> | [-> | [-> | [-> | H]]]]]; try reflexivity.
  - replace (Z.max 0 (Z.min 5 c)) with 0 by lia. cbn [map].
    rewrite !(proj2 (Z.ltb_ge _ _)) by lia. reflexivity.
  - replace (Z.max 0 (Z.min 5 c)) with 5 by lia. cbn [map].
    rewrite !(proj2 (Z.ltb_lt _ _)) by lia. reflexivity.
Qed.

Lemma filled_replicate (k : nat) :
  (k <= 5)%nat ->
  length (List.filter (fun b : bool => b)
            (replicate k true ++ replicate (5 - k) false)) = k.
Proof.
  intros Hk.
  destruct k as [| [| [| [| [| [| k]]]]]]; try reflexivity. lia.
Qed.

(** X4. A review card always draws five stars, the filled ones first.  For
    a finite rating the number filled is the rating rounded up, kept within
    0..5: a whole rating of 0..5 fills that many, 4.4 fills five; a rating
    that is NaN or -Infinity fills none, +Infinity all five. *)
Theorem star_row_filled_prefix :
  (forall rating : number,
      length (stars rating) = 5%nat /\
      (filled rating <= 5)%nat /\
      stars rating = replicate (filled rating) true
                     ++ replicate (5 - filled rating) false)
  /\ (forall q : Q,
        filled (Finite q) = Z.to_nat (Z.max 0 (Z.min 5 (Qceiling q))))
  /\ (forall k : Z, 0 <= k <= 5 -> filled (of_Z k) = Z.to_nat k)
  /\ filled NaN = 0%nat /\ filled NegInf = 0%nat /\ filled PosInf = 5%nat.
Proof.
  assert (Hfin : forall q : Q,
             filled (Finite q) = Z.to_nat (Z.max 0 (Z.min 5 (Qceiling q)))).
  { intros q. unfold filled. rewrite stars_finite, stars_by_ceiling.
    apply filled_replicate. lia. }
  split; [|split; [exact Hfin|split]].
  - intros [q | | |].
    + rewrite Hfin. rewrite stars_finite, stars_by_ceiling.
      split; [|split]; [ | lia | reflexivity].
      rewrite length_app, !length_replicate. lia.
    + repeat split. cbn. lia.
    + repeat split. cbn. lia.
    + repeat split. cbn. lia.
  - intros k Hk. unfold of_Z. rewrite Hfin, Qceiling_Z. f_equal. lia.
  - repeat split.
Qed.

Lemma star_row_filled_prefix_witness :
  0 <= 4 <= 5 /\ filled (of_Z 4) = 4%nat /\ filled (Finite (22 # 5)) = 5%nat.
Proof.
  destruct star_row_filled_prefix as (_ & Hfin & Hwhole & _).
  split; [lia|]. split.
  - apply (Hwhole 4). lia.
  - rewrite Hfin. reflexivity.
Defined.

End Stars.

(* ===================================================================== *)
(** ** The results page: filter tabs, the review list, colours            *)
(* ===================================================================== *)

Section ResultsPageFacts.
Import JS RatingChart ResultsPage ReviewList.

Lemma filter_label_sound (f : string) (reviews : list Review) :
  Forall (fun review => label review = Str f)
         (List.filter (fun review => strict_eq_str (label review) f) reviews).
Proof.
  apply List.Forall_forall. intros review Hin. apply filter_In in Hin as [_ H].
  destruct (label review); cbn in H; try discriminate.
  apply String.eqb_eq in H. congruence.
Qed.

Lemma sublist_filter_bool {X : Type} (f : X -> bool) (l : list X) :
  sublist (List.filter f l) l.
Proof.
  induction l as [| x l IH]; [constructor|].
  cbn [List.filter]. destruct (f x); [apply sublist_skip | apply sublist_cons];
    exact IH.
Qed.

Lemma tabs_count (reviews : list Review) :
  (length (filteredReviews "fake" reviews)
   + length (filteredReviews "genuine" reviews)
   + length (List.filter
               (fun review => negb (strict_eq_str (label review) "fake")
                              && negb (strict_eq_str (label review) "genuine"))
               reviews)
   = length reviews)%nat.
Proof.
  rewrite !filteredReviews_label by reflexivity.
  induction reviews as [| review reviews IH]; [reflexivity|].
  cbn [List.filter length].
  destruct (strict_eq_str (label review) "fake") eqn:Hf;
    destruct (strict_eq_str (label review) "genuine") eqn:Hg;
    cbn [negb andb length]; try lia.
  exfalso. destruct (label review); cbn in Hf, Hg; try discriminate.
  apply String.eqb_eq in Hf, Hg. congruence.
Qed.

Lemma no_other_label (reviews : list Review) :
  List.filter (fun review => negb (strict_eq_str (label review) "fake")
                             && negb (strict_eq_str (label review) "genuine"))
              reviews = []
  <-> Forall (fun review => label review = Str "fake" \/
                            label review = Str "genuine") reviews.
Proof.
  induction reviews as [| review reviews IH].
  - split; [constructor | reflexivity].
  - cbn [List.filter].
    destruct (strict_eq_str (label review) "fake") eqn:Hf;
      [| destruct (strict_eq_str (label review) "genuine") eqn:Hg];
      cbn [negb andb].
    + rewrite IH. split.
      * intros H. constructor; [|exact H]. left.
        destruct (label review); cbn in Hf; try discriminate.
        apply String.eqb_eq in Hf. congruence.
      * intros H. inversion H; assumption.
    + rewrite IH. split.
      * intros H. constructor; [|exact H]. right.
        destruct (label review); cbn in Hg; try discriminate.
        apply String.eqb_eq in Hg. congruence.
      * intros H. inversion H; assumption.
    + split; [discriminate|]. intros H. exfalso.
      inversion H as [| ? ? [Hl | Hl] _]; subst; rewrite Hl in *; cbn in *;
        discriminate.
Qed.

(** X5. The Fake tab shows only reviews labelled exactly 'fake' and the
    Genuine tab only reviews labelled exactly 'genuine', each in the
    original order; no review is in both, and together the two tabs show as
    many reviews as the All tab exactly when every label is 'fake' or
    'genuine'. *)
Theorem filter_tabs_partition (reviews : list Review) :
  Forall (fun review => label review = Str "fake")
         (filteredReviews "fake" reviews)
  /\ Forall (fun review => label review = Str "genuine")
            (filteredReviews "genuine" reviews)
  /\ sublist (filteredReviews "fake" reviews) reviews
  /\ sublist (filteredReviews "genuine" reviews) reviews
  /\ (length (filteredReviews "fake" reviews)
      + length (filteredReviews "genuine" reviews)
      <= length (filteredReviews "all" reviews))%nat
  /\ ((length (filteredReviews "fake" reviews)
       + length (filteredReviews "genuine" reviews)
       = length (filteredReviews "all" reviews))%nat
      <-> Forall (fun review => label review = Str "fake" \/
                                label review = Str "genuine") reviews).
Proof.
  pose proof (tabs_count reviews) as Hcount.
  rewrite filteredReviews_all.
  split; [|split; [|split; [|split; [|split]]]].
  - rewrite filteredReviews_label by reflexivity. apply filter_label_sound.
  - rewrite filteredReviews_label by reflexivity. apply filter_label_sound.
  - rewrite filteredReviews_label by reflexivity. apply sublist_filter_bool.
  - rewrite filteredReviews_label by reflexivity. apply sublist_filter_bool.
  - lia.
  - rewrite <- no_other_label. split.
    + intros Heq. apply length_zero_iff_nil. lia.
    + intros Hnil. rewrite Hnil in Hcount. cbn [length] in Hcount. lia.
Qed.

(** X6. The list renders the first twenty reviews of the selected tab, in
    order, and the line "Showing 20 of N" appears exactly when some review
    of the tab is not rendered. *)
Theorem review_list_shows_first_twenty (filtered : list Review) :
  (exists hidden, filtered = shown filtered ++ hidden /\
                  (more_notice filtered = true <-> hidden <> []))
  /\ length (shown filtered) = Nat.min 20 (length filtered)
  /\ (more_notice filtered = false <-> shown filtered = filtered).
Proof.
  unfold shown, more_notice. split; [|split].
  - exists (drop 20 filtered). split; [symmetry; apply take_drop|].
    rewrite Nat.ltb_lt. split.
    + intros Hlt Hnil. apply (f_equal length) in Hnil.
      rewrite length_drop in Hnil. cbn in Hnil. lia.
    + intros Hne. destruct (Nat.lt_ge_cases 20 (length filtered)) as [H|H];
        [exact H|]. exfalso. apply Hne. apply drop_ge. exact H.
  - apply length_take.
  - rewrite Nat.ltb_ge. split.
    + intros H. apply take_ge. exact H.
    + intros H. apply (f_equal length) in H. rewrite length_take in H. lia.
Qed.

(** X7. Whenever the adjusted rating is drawn in orange (a difference
    above 0.5) the difference carries its minus sign; a difference that is
    not a number gets neither. *)
Theorem orange_difference_has_sign :
  (forall d : number,
      difference_color d = "text-orange-600" -> difference_sign d = "-")
  /\ (forall q : Q, difference_sign (Finite q) = "-" <-> (0 < q)%Q)
  /\ (forall q : Q,
        difference_color (Finite q) = "text-orange-600" <-> (1 # 2 < q)%Q)
  /\ difference_sign NaN = "" /\ difference_color NaN = "text-gray-900".
Proof.
  assert (Hs : forall q : Q, difference_sign (Finite q) = "-" <-> (0 < q)%Q).
  { intros q. unfold difference_sign, of_Z. cbn [lt]. rewrite <- Qltb_lt.
    change (inject_Z 0) with 0%Q. destruct (Qltb 0 q); split; congruence. }
  assert (Hc : forall q : Q,
             difference_color (Finite q) = "text-orange-600" <-> (1 # 2 < q)%Q).
  { intros q. unfold difference_color. cbn [lt]. rewrite <- Qltb_lt.
    destruct (Qltb (1 # 2) q); split; congruence. }
  split; [|split; [exact Hs|split; [exact Hc|split; reflexivity]]].
  intros [q | | |] H; try reflexivity; try discriminate H.
  apply Hs. apply Hc in H. lra.
Qed.

Lemma orange_difference_has_sign_witness :
  difference_color (Finite (7 # 10)) = "text-orange-600"
  /\ difference_sign (Finite (7 # 10)) = "-".
Proof.
  destruct orange_difference_has_sign as (H & _).
  assert (Hc : difference_color (Finite (7 # 10)) = "text-orange-600")
    by reflexivity.
  split; [exact Hc | exact (H _ Hc)].
Defined.

(** X8. The colour of the fake percentage never gets milder as the
    percentage grows: green, yellow, orange, red in that order; a
    percentage that is NaN or +Infinity is red, -Infinity is green. *)
Theorem percentage_color_monotone :
  (forall p q : Q,
      (p <= q)%Q ->
      (Tier.rank (getFakePercentageColor (Finite p))
       <= Tier.rank (getFakePercentageColor (Finite q)))%nat)
  /\ getFakePercentageColor NaN = "text-red-600"
  /\ getFakePercentageColor PosInf = "text-red-600"
  /\ getFakePercentageColor NegInf = "text-green-600".
Proof.
  split; [|repeat split].
  intros p q Hpq.
  destruct (color_cases p) as [[Hp ->] | [(Hp1 & Hp2 & ->) | [(Hp1 & Hp2 & ->) | [Hp ->]]]];
    destruct (color_cases q) as [[Hq ->] | [(Hq1 & Hq2 & ->) | [(Hq1 & Hq2 & ->) | [Hq ->]]]];
    cbn; try lia; exfalso; lra.
Qed.

Lemma percentage_color_monotone_witness :
  (15 <= 30)%Q /\
  (Tier.rank (getFakePercentageColor (Finite 15))
   <= Tier.rank (getFakePercentageColor (Finite 30)))%nat.
Proof.
  destruct percentage_color_monotone as (H & _).
  assert (Hle : (15 <= 30)%Q) by (vm_compute; discriminate).
  split; [exact Hle | exact (H 15%Q 30%Q Hle)].
Defined.

End ResultsPageFacts.

(* ===================================================================== *)
(** ** The grade badge: every input gets classes                          *)
(* ===================================================================== *)

Section BadgeFacts.
Import JS.


Lemma sizeClasses_own (size : string) :
  size <> "small" -> size <> "medium" -> size <> "large" ->
  GradeBadge.sizeClasses !! size = None.
Proof.
  intros. unfold GradeBadge.sizeClasses.
  repeat (rewrite lookup_insert_ne by congruence).
  apply lookup_singleton_ne. congruence.
Qed.

Lemma get_gradeColors (grade : string) :
  (exists c, get GradeBadge.gradeColors grade = Str c /\
             In c [ "bg-green-500"; "bg-lime-500"; "bg-yellow-500";
                    "bg-orange-500"; "bg-red-500"; "bg-gray-400" ])
  \/ (inherited grade = true /\ get GradeBadge.gradeColors grade = Builtin grade)
  \/ get GradeBadge.gradeColors grade = Undefined.
Proof.
  destruct (decide (grade = "A")) as [-> |];
    [left; eexists; split; [reflexivity | cbn; tauto]|].
  destruct (decide (grade = "B")) as [-> |];
    [left; eexists; split; [reflexivity | cbn; tauto]|].
  destruct (decide (grade = "C")) as [-> |];
    [left; eexists; split; [reflexivity | cbn; tauto]|].
  destruct (decide (grade = "D")) as [-> |];
    [left; eexists; split; [reflexivity | cbn; tauto]|].
  destruct (decide (grade = "F")) as [-> |];
    [left; eexists; split; [reflexivity | cbn; tauto]|].
  destruct (decide (grade = "N/A")) as [-> |];
    [left; eexists; split; [reflexivity | cbn; tauto]|].
  right. unfold get. rewrite gradeColors_own by assumption.
  destruct (inherited grade); [left; split; reflexivity | right; reflexivity].
Qed.

Lemma get_sizeClasses (size : string) :
  (exists c, get GradeBadge.sizeClasses size = Str c /\
             In c [ "w-10 h-10 text-xl"; "w-16 h-16 text-3xl";
                    "w-24 h-24 text-5xl" ])
  \/ (inherited size = true /\ get GradeBadge.sizeClasses size = Builtin size)
  \/ get GradeBadge.sizeClasses size = Undefined.
Proof.
  destruct (decide (size = "small")) as [-> |];
    [left; eexists; split; [reflexivity | cbn; tauto]|].
  destruct (decide (size = "medium")) as [-> |];
    [left; eexists; split; [reflexivity | cbn; tauto]|].
  destruct (decide (size = "large")) as [-> |];
    [left; eexists; split; [reflexivity | cbn; tauto]|].
  right. unfold get. rewrite sizeClasses_own by assumption.
  destruct (inherited size); [left; split; reflexivity | right; reflexivity].
Qed.

(** X9. Whatever grade and size the badge is given, both class fragments
    are defined: the colour is one of the six of the table, and the size
    one of the three, unless the name is one every object inherits, in
    which case the fragment is that inherited value; it is never undefined
    or empty.  Without a size the badge is the large one, and the badge
    shows the grade it was given. *)
Theorem badge_classes_always_defined (grade : string) (size : option string) :
  let b := GradeBadge.GradeBadge grade size in
  ((exists c, GradeBadge.colorClass b = Str c /\
              In c [ "bg-green-500"; "bg-lime-500"; "bg-yellow-500";
                     "bg-orange-500"; "bg-red-500"; "bg-gray-400" ])
   \/ (inherited grade = true /\ GradeBadge.colorClass b = Builtin grade))
  /\ ((exists c, GradeBadge.sizeClass b = Str c /\
                 In c [ "w-10 h-10 text-xl"; "w-16 h-16 text-3xl";
                        "w-24 h-24 text-5xl" ])
      \/ (exists name, size = Some name /\ inherited name = true /\
                       GradeBadge.sizeClass b = Builtin name))
  /\ truthy (GradeBadge.colorClass b) = true
  /\ truthy (GradeBadge.sizeClass b) = true
  /\ GradeBadge.children b = grade
  /\ GradeBadge.sizeClass (GradeBadge.GradeBadge grade None)
     = Str "w-24 h-24 text-5xl".
Proof.
  intros b. subst b. unfold GradeBadge.GradeBadge.
  cbn [GradeBadge.colorClass GradeBadge.sizeClass GradeBadge.children].
  assert (Hcolor :
    (exists c, or (get GradeBadge.gradeColors grade)
                  (get GradeBadge.gradeColors "N/A") = Str c /\
               In c [ "bg-green-500"; "bg-lime-500"; "bg-yellow-500";
                      "bg-orange-500"; "bg-red-500"; "bg-gray-400" ])
    \/ (inherited grade = true /\
        or (get GradeBadge.gradeColors grade)
           (get GradeBadge.gradeColors "N/A") = Builtin grade)).
  { destruct (get_gradeColors grade) as [(c & Hc & Hin) | [[Hi Hc] | Hc]];
      rewrite Hc.
    - left. exists c. split; [|exact Hin].
      cbn in Hin. decompose [Logic.or] Hin; subst; try reflexivity. contradiction.
    - right. split; [exact Hi | reflexivity].
    - left. eexists. split; [reflexivity | cbn; tauto]. }
  assert (Hsize :
    (exists c, or (get GradeBadge.sizeClasses (default "large" size))
                  (get GradeBadge.sizeClasses "large") = Str c /\
               In c [ "w-10 h-10 text-xl"; "w-16 h-16 text-3xl";
                      "w-24 h-24 text-5xl" ])
    \/ (exists name, size = Some name /\ inherited name = true /\
          or (get GradeBadge.sizeClasses (default "large" size))
             (get GradeBadge.sizeClasses "large") = Builtin name)).
  { destruct size as [name|].
    - change (default "large" (Some name)) with name.
      destruct (get_sizeClasses name) as [(c & Hc & Hin) | [[Hi Hc] | Hc]];
        rewrite Hc.
      + left. exists c. split; [|exact Hin].
        cbn in Hin. decompose [Logic.or] Hin; subst; try reflexivity. contradiction.
      + right. exists name. repeat split. exact Hi.
      + left. eexists. split; [reflexivity | cbn; tauto].
    - left. eexists. split; [reflexivity | cbn; tauto]. }
  split; [exact Hcolor|]. split; [exact Hsize|].
  split; [|split; [|split; reflexivity]].
  - destruct Hcolor as [(c & -> & Hin) | [_ ->]]; [|reflexivity].
    cbn in Hin. decompose [Logic.or] Hin; subst; try reflexivity. contradiction.
  - destruct Hsize as [(c & -> & Hin) | (name & _ & _ & ->)]; [|reflexivity].
    cbn in Hin. decompose [Logic.or] Hin; subst; try reflexivity. contradiction.
Qed.

End BadgeFacts.

(* ===================================================================== *)
(** ** Strings                                                            *)
(* ===================================================================== *)

Section StringFacts.
Import Text Markup.

Lemma append_cons (c : Ascii.ascii) (a b : string) :
  String.append (String c a) b = String c (String.append a b).
Proof. reflexivity. Qed.

Lemma append_nil_l (s : string) : String.append EmptyString s = s.
Proof. reflexivity. Qed.

Lemma append_nil_r (s : string) : String.append s EmptyString = s.
Proof.
  induction s as [| c s IH]; [reflexivity|].
  rewrite append_cons, IH. reflexivity.
Qed.

Lemma append_assoc (a b c : string) :
  String.append (String.append a b) c = String.append a (String.append b c).
Proof.
  induction a as [| x a IH]; [reflexivity|].
  rewrite !append_cons, IH. reflexivity.
Qed.

Lemma length_append (a b : string) :
  String.length (String.append a b) = (String.length a + String.length b)%nat.
Proof.
  induction a as [| x a IH]; [reflexivity|].
  rewrite append_cons. cbn [String.length]. rewrite IH. reflexivity.
Qed.

Lemma rev_app_spec (a b : string) :
  String.rev_app a b = String.append (String.rev a) b.
Proof.
  unfold String.rev. revert b. induction a as [| x a IH]; intros b; [reflexivity|].
  cbn [String.rev_app].
  rewrite (IH (String x b)), (IH (String x EmptyString)), append_assoc.
  reflexivity.
Qed.

Lemma rev_cons (x : Ascii.ascii) (a : string) :
  String.rev (String x a) = String.append (String.rev a) (String x EmptyString).
Proof. unfold String.rev at 1. cbn [String.rev_app]. apply rev_app_spec. Qed.

Lemma rev_append (a b : string) :
  String.rev (String.append a b) = String.append (String.rev b) (String.rev a).
Proof.
  induction a as [| x a IH].
  - rewrite append_nil_l. change (String.rev EmptyString) with EmptyString.
    rewrite append_nil_r. reflexivity.
  - rewrite append_cons, !rev_cons, IH, append_assoc. reflexivity.
Qed.

Lemma rev_involutive (a : string) : String.rev (String.rev a) = a.
Proof.
  induction a as [| x a IH]; [reflexivity|].
  rewrite rev_cons, rev_append, IH. reflexivity.
Qed.

Lemma blank_append (a b : string) :
  blank (String.append a b) = blank a && blank b.
Proof.
  induction a as [| x a IH]; [reflexivity|].
  rewrite append_cons. cbn [blank]. rewrite IH, andb_assoc. reflexivity.
Qed.

Lemma blank_rev (a : string) : blank (String.rev a) = blank a.
Proof.
  induction a as [| x a IH]; [reflexivity|].
  rewrite rev_cons, blank_append, IH. cbn [blank].
  rewrite andb_true_r. apply andb_comm.
Qed.

Lemma trimStart_blank (s : string) : trimStart s = EmptyString <-> blank s = true.
Proof.
  induction s as [| c s IH]; cbn [trimStart blank]; [tauto|].
  destruct (is_white_space c); cbn [andb]; [exact IH|]. split; discriminate.
Qed.

Lemma trimStart_head (s : string) :
  trimStart s = EmptyString \/
  exists c s', trimStart s = String c s' /\ is_white_space c = false.
Proof.
  induction s as [| c s IH]; cbn [trimStart]; [left; reflexivity|].
  destruct (is_white_space c) eqn:Hc; [exact IH|].
  right. exists c, s. split; [reflexivity | exact Hc].
Qed.

Lemma rev_empty (s : string) : String.rev s = EmptyString <-> s = EmptyString.
Proof.
  split; [|intros ->; reflexivity].
  intros H. apply (f_equal String.rev) in H. rewrite rev_involutive in H.
  exact H.
Qed.

(** [s.trim()] is empty exactly when [s] is white space throughout. *)
Lemma trim_blank (s : string) : trim s = EmptyString <-> blank s = true.
Proof.
  unfold trim. rewrite rev_empty, trimStart_blank, blank_rev.
  rewrite <- (trimStart_blank s).
  destruct (trimStart_head s) as [H | (c & s' & H & Hc)]; rewrite H.
  - cbn. tauto.
  - cbn [blank]. rewrite Hc. cbn [andb]. split; discriminate.
Qed.

Lemma trimStart_skip (w s : string) :
  blank w = true -> trimStart (String.append w s) = trimStart s.
Proof.
  induction w as [| c w IH]; [reflexivity|]. rewrite append_cons.
  cbn [blank trimStart].
  intros H. apply andb_true_iff in H as [Hc Hw]. rewrite Hc. exact (IH Hw).
Qed.

End StringFacts.

(* ===================================================================== *)
(** ** The summary card                                                   *)
(* ===================================================================== *)

Section SummaryFacts.
Import Text SummaryCard Markup.
Local Open Scope nat_scope.

Lemma after_marker_sound (s rest : string) :
  after_marker s = Some rest -> s = String.append "**" rest.
Proof.
  destruct s as [| c [| d s]]; try discriminate. cbn [after_marker].
  destruct (Ascii.eqb_spec c "*"%char) as [-> |]; [|discriminate].
  destruct (Ascii.eqb_spec d "*"%char) as [-> |]; [|discriminate].
  intros [= <-]. reflexivity.
Qed.

Lemma close_sound (s capture rest : string) :
  close s = Some (capture, rest) ->
  s = String.append capture (String.append "**" rest).
Proof.
  revert capture. induction s as [| c s IH]; intros capture H.
  - discriminate.
  - cbn [close] in H. destruct (after_marker (String c s)) as [r|] eqn:Hm.
    + injection H as <- <-. apply after_marker_sound. exact Hm.
    + destruct (is_line_terminator c); [discriminate|].
      destruct (close s) as [[capture' rest']|]; [|discriminate].
      injection H as <- <-. rewrite append_cons. f_equal. apply IH. reflexivity.
Qed.

Lemma match_here_sound (s capture rest : string) :
  match_here s = Some (capture, rest) ->
  s = String.append "**" (String.append capture (String.append "**" rest)).
Proof.
  unfold match_here. destruct (after_marker s) as [r|] eqn:Hm; [|discriminate].
  intros H. apply after_marker_sound in Hm. apply close_sound in H.
  rewrite Hm, H. reflexivity.
Qed.

Lemma match_here_shorter (s capture rest : string) :
  match_here s = Some (capture, rest) ->
  (String.length rest < String.length s)%nat.
Proof.
  intros H. apply match_here_sound in H. rewrite H.
  rewrite !length_append. cbn. lia.
Qed.

Lemma split_from_join (fuel : nat) (pending s : string) :
  (String.length s <= fuel)%nat ->
  join (split_from fuel pending s) = String.append pending s.
Proof.
  revert pending s. induction fuel as [| fuel IH]; intros pending s Hlen.
  - reflexivity.
  - destruct s as [| c s'].
    + cbn [split_from join]. rewrite append_nil_r. reflexivity.
    + cbn [split_from].
      destruct (match_here (String c s')) as [[capture rest]|] eqn:Hm.
      * pose proof (match_here_shorter _ _ _ Hm) as Hshort.
        pose proof (match_here_sound _ _ _ Hm) as Hs.
        cbn [join]. rewrite IH by lia. rewrite append_nil_l, Hs. reflexivity.
      * rewrite IH by (cbn [String.length] in Hlen; lia).
        rewrite append_assoc. reflexivity.
Qed.

Lemma mod2_odd (i : nat) : Nat.eqb (i mod 2) 1 = Nat.odd i.
Proof.
  assert (H : Nat.eqb (i mod 2) 1 = Nat.odd i
              /\ Nat.eqb (S i mod 2) 1 = Nat.odd (S i)).
  { induction i as [| i [IH1 IH2]]; [split; reflexivity|].
    split; [exact IH2|]. rewrite Nat.odd_succ_succ, <- IH1.
    replace (S (S i)) with (i + 1 * 2) by lia.
    rewrite Nat.Div0.mod_add. reflexivity. }
  exact (proj1 H).
Qed.

Lemma emphasize_lookup (parts : list string) (i : nat) :
  emphasize parts !! i
  = (fun part => if Nat.eqb (i mod 2) 1 then Strong i part else Plain part)
      <$> parts !! i.
Proof. unfold emphasize. apply list_lookup_imap. Qed.

Lemma source_imap (parts : list string) :
  forall m : nat,
    source (imap (fun i part => if Nat.eqb ((2 * m + i) mod 2) 1
                                then Strong (2 * m + i) part else Plain part)
                 parts)
    = join parts.
Proof.
  assert (Hboth : forall l : list string,
    (forall m, source (imap (fun i part => if Nat.eqb ((2 * m + i) mod 2) 1
                                           then Strong (2 * m + i) part
                                           else Plain part) l) = join l)
    /\ (forall t m, source (imap (fun i part => if Nat.eqb ((2 * m + i) mod 2) 1
                                                then Strong (2 * m + i) part
                                                else Plain part) (t :: l))
                    = join (t :: l))).
  { assert (Heven : forall m, (2 * m + 0) mod 2 = 0%nat).
    { intros m. rewrite Nat.add_0_r, Nat.mul_comm. apply Nat.Div0.mod_mul. }
    assert (Hodd : forall m, (2 * m + 1) mod 2 = 1%nat).
    { intros m. rewrite Nat.add_comm, Nat.mul_comm, Nat.Div0.mod_add.
      reflexivity. }
    induction l as [| c l [IH1 IH2]].
    - split; [reflexivity|]. intros t m. cbn [imap source join].
      rewrite Heven. cbn [Nat.eqb source]. apply append_nil_r.
    - split; [exact (IH2 c)|]. intros t m.
      cbn [imap compose]. rewrite Heven, Hodd. cbn [Nat.eqb source join].
      do 4 f_equal. rewrite <- (IH1 (S m)). f_equal.
      apply imap_ext. intros i x _. cbn [compose].
      replace (2 * m + S (S i))%nat with (2 * S m + i)%nat by lia.
      reflexivity. }
  intros m. apply (Hboth parts).
Qed.

Lemma source_emphasize (parts : list string) :
  source (emphasize parts) = join parts.
Proof. exact (source_imap parts 0). Qed.

Lemma split_from_odd (fuel : nat) (pending s : string) :
  Nat.odd (length (split_from fuel pending s)) = true.
Proof.
  revert pending s. induction fuel as [| fuel IH]; intros pending s;
    [reflexivity|].
  destruct s as [| c s']; [reflexivity|]. cbn [split_from].
  destruct (match_here (String c s')) as [[capture rest]|].
  - cbn [length]. rewrite Nat.odd_succ_succ. apply IH.
  - apply IH.
Qed.

Lemma close_capture_clean (s capture rest : string) :
  close s = Some (capture, rest) ->
  has_marker capture = false /\
  single_line capture = true.
Proof.
  revert capture. induction s as [| c s IH]; intros capture H.
  - discriminate.
  - cbn [close] in H. destruct (after_marker (String c s)) as [r|] eqn:Hm.
    + injection H as <- <-. split; reflexivity.
    + destruct (is_line_terminator c) eqn:Hc; [discriminate|].
      destruct (close s) as [[capture' rest']|] eqn:Hcl; [|discriminate].
      injection H as <- <-.
      destruct (IH capture' eq_refl) as [IHm IHl]. split.
      * cbn [has_marker].
        destruct (after_marker (String c capture')) as [r|] eqn:Hm'; [|exact IHm].
        exfalso. apply close_sound in Hcl. apply after_marker_sound in Hm'.
        rewrite Hcl in Hm. injection Hm' as -> ->.
        cbn in Hm. discriminate.
      * cbn [single_line]. rewrite Hc, IHl. reflexivity.
Qed.

Lemma split_from_captures (fuel : nat) (pending s : string) (i : nat) (c : string) :
  split_from fuel pending s !! i = Some c ->
  Nat.odd i = true ->
  has_marker c = false /\
  single_line c = true.
Proof.
  revert pending s i. induction fuel as [| fuel IH]; intros pending s i Hi Hodd.
  - destruct i; [discriminate Hodd | discriminate Hi].
  - destruct s as [| x s'].
    + destruct i; [discriminate Hodd | discriminate Hi].
    + cbn [split_from] in Hi.
      destruct (match_here (String x s')) as [[capture rest]|] eqn:Hm.
      * destruct i as [| [| j]].
        -- discriminate Hodd.
        -- injection Hi as <-. unfold match_here in Hm.
           destruct (after_marker (String x s')); [|discriminate].
           exact (close_capture_clean _ _ _ Hm).
        -- rewrite Nat.odd_succ_succ in Hodd. exact (IH _ _ _ Hi Hodd).
      * exact (IH _ _ _ Hi Hodd).
Qed.

(** X10. Cutting a line at its bold markers loses nothing: read back with
    the bold fragments between ** markers, the children are the line.
    Plain text and bold fragments alternate, starting and ending with plain
    text, each bold fragment keyed by its position; a bold fragment holds
    neither a ** nor a line terminator. *)
Theorem bold_split_round_trip (s : string) :
  source (formattedContent s) = s
  /\ Nat.odd (length (formattedContent s)) = true
  /\ (forall i x, formattedContent s !! i = Some x ->
        if Nat.odd i
        then exists t, x = Strong i t /\ has_marker t = false /\
                       single_line t = true
        else exists t, x = Plain t).
Proof.
  unfold formattedContent. split; [|split].
  - rewrite source_emphasize. unfold split_bold.
    rewrite split_from_join by lia. reflexivity.
  - unfold emphasize. rewrite length_imap. apply split_from_odd.
  - intros i x Hx. rewrite emphasize_lookup in Hx.
    destruct (split_bold s !! i) as [t|] eqn:Ht; [|discriminate].
    rewrite mod2_odd in Hx. injection Hx as <-.
    destruct (Nat.odd i) eqn:Hodd.
    + exists t. split; [reflexivity|].
      exact (split_from_captures _ _ _ _ _ Ht Hodd).
    + exists t. reflexivity.
Qed.

Lemma split_length (sep : Ascii.ascii) (s : string) :
  length (split sep s) = S (occurrences sep s).
Proof.
  induction s as [| c s IH]; [reflexivity|]. cbn [split occurrences].
  destruct (Ascii.eqb c sep).
  - cbn [length]. rewrite IH. reflexivity.
  - destruct (split sep s) as [| h t]; [discriminate IH|].
    cbn [length] in *. exact IH.
Qed.

Lemma concat_two (sep x y : string) (l : list string) :
  String.concat sep (x :: y :: l)
  = String.append x (String.append sep (String.concat sep (y :: l))).
Proof. reflexivity. Qed.

Lemma split_concat (sep : Ascii.ascii) (s : string) :
  String.concat (String sep EmptyString) (split sep s) = s.
Proof.
  induction s as [| c s IH]; [reflexivity|]. cbn [split].
  pose proof (split_length sep s) as Hlen.
  destruct (split sep s) as [| h t]; [discriminate Hlen|]. clear Hlen.
  destruct (Ascii.eqb_spec c sep) as [-> | Hne].
  - rewrite concat_two, IH. reflexivity.
  - destruct t as [| h' t].
    + change (String c h = String c s). f_equal. exact IH.
    + rewrite concat_two in *. rewrite append_cons, IH. reflexivity.
Qed.

Lemma startsWith_not_blank (p s : string) (c : Ascii.ascii) (p' : string) :
  p = String c p' -> is_white_space c = false ->
  startsWith p s = true -> blank s = false.
Proof.
  intros -> Hc. unfold startsWith. destruct s as [| x s]; [discriminate|].
  cbn [String.prefix]. destruct (Ascii.ascii_dec c x) as [<- |]; [|discriminate].
  intros _. cbn [blank]. rewrite Hc. reflexivity.
Qed.

Lemma format_line_nothing (i : nat) (line : string) :
  format_line i line = Nothing <-> blank line = true.
Proof.
  unfold format_line.
  destruct (startsWith "**" line) eqn:Hs;
    [destruct (endsWith "**" line) eqn:He|]; cbn [andb].
  - pose proof (startsWith_not_blank "**" line "*"%char "*" eq_refl eq_refl Hs) as Hb.
    rewrite Hb. split; discriminate.
  - destruct (startsWith "- " line) eqn:Hd.
    + pose proof (startsWith_not_blank "**" line "*"%char "*" eq_refl eq_refl Hs) as Hb.
      rewrite Hb. split; discriminate.
    + pose proof (startsWith_not_blank "**" line "*"%char "*" eq_refl eq_refl Hs) as Hb.
      rewrite Hb. destruct (String.eqb_spec (trim line) "") as [Ht | Ht].
      * apply trim_blank in Ht. congruence.
      * cbn [negb]. split; discriminate.
  - destruct (startsWith "- " line) eqn:Hd.
    + pose proof (startsWith_not_blank "- " line "-"%char " " eq_refl eq_refl Hd) as Hb.
      rewrite Hb. split; discriminate.
    + destruct (String.eqb_spec (trim line) "") as [Ht | Ht]; cbn [negb].
      * apply trim_blank in Ht. tauto.
      * split; [discriminate|]. intros Hb. apply trim_blank in Hb. contradiction.
Qed.

Lemma format_line_key (i : nat) (line : string) :
  format_line i line = Nothing \/ key_of (format_line i line) = Some i.
Proof.
  unfold format_line.
  destruct (startsWith "**" line && endsWith "**" line); [right; reflexivity|].
  destruct (startsWith "- " line); [right; reflexivity|].
  destruct (negb (String.eqb (trim line) "")); [right | left]; reflexivity.
Qed.

(** X11. A summary that is missing or empty renders as nothing.  Any other
    summary renders one slot per line (one more than it has newlines), in
    order; a slot is empty exactly when its line is white space throughout,
    so no line with text is dropped, and every element is keyed by its line
    number. *)
Theorem summary_keeps_every_line :
  formatSummary None = EmptyText
  /\ formatSummary (Some EmptyString) = EmptyText
  /\ forall s : string,
       s <> EmptyString ->
       exists lines els,
         lines = split "010"%char s /\
         String.concat (String "010"%char EmptyString) lines = s /\
         formatSummary (Some s) = Elements els /\
         length els = length lines /\
         length els = S (occurrences "010"%char s) /\
         forall i line, lines !! i = Some line ->
           exists e, els !! i = Some e /\
                     (e = Nothing <-> blank line = true) /\
                     (e <> Nothing -> key_of e = Some i).
Proof.
  split; [reflexivity|]. split; [reflexivity|].
  intros s Hs. exists (split "010"%char s), (imap format_line (split "010"%char s)).
  split; [reflexivity|]. split; [apply split_concat|]. split.
  - unfold formatSummary. destruct (String.eqb_spec s ""); [contradiction|].
    reflexivity.
  - split; [apply length_imap|]. split.
    + rewrite length_imap. apply split_length.
    + intros i line Hi. exists (format_line i line). split.
      * rewrite list_lookup_imap, Hi. reflexivity.
      * split; [apply format_line_nothing|].
        intros Hne. destruct (format_line_key i line); [contradiction | assumption].
Qed.





End SummaryFacts.

(* ===================================================================== *)
(** ** The pattern card                                                   *)
(* ===================================================================== *)

Section PatternFacts.
Import Text Markup.
Local Open Scope nat_scope.

(** X13. The heading of a pattern card is the pattern type with every
    underscore turned into a space and nothing else changed: same length,
    no underscore left, every other code unit in its place; doing it twice
    changes nothing more. *)
Theorem pattern_heading_has_no_underscore (pattern_type : string) :
  String.length (PatternCard.heading pattern_type) = String.length pattern_type
  /\ occurrences "_"%char (PatternCard.heading pattern_type) = 0
  /\ (forall i,
        String.get i (PatternCard.heading pattern_type)
        = (fun c => if Ascii.eqb c "_"%char then " "%char else c)
            <$> String.get i pattern_type)
  /\ PatternCard.heading (PatternCard.heading pattern_type)
     = PatternCard.heading pattern_type.
Proof.
  unfold PatternCard.heading.
  induction pattern_type as [| c s (IHl & IHo & IHg & IHi)].
  - split; [reflexivity|split; [reflexivity|split;
      [intros [| i]; reflexivity | reflexivity]]].
  - cbn [replace_all String.length occurrences]. split; [|split; [|split]].
    + rewrite IHl. reflexivity.
    + rewrite IHo. destruct (Ascii.eqb_spec c "_"%char) as [-> |]; [reflexivity|].
      destruct (Ascii.eqb_spec c "_"%char); [contradiction | reflexivity].
    + intros [| i]; [reflexivity|]. cbn [String.get]. apply IHg.
    + rewrite IHi. f_equal.
      destruct (Ascii.eqb_spec c "_"%char) as [-> |]; [reflexivity|].
      destruct (Ascii.eqb_spec c "_"%char); [contradiction | reflexivity].
Qed.

End PatternFacts.

(* ===================================================================== *)
(** ** Failures of the analysis request                                   *)
(* ===================================================================== *)

Section ErrorMessages.
Import JS Api.





End ErrorMessages.

(* ===================================================================== *)
(** ** The application's pages                                            *)
(* ===================================================================== *)

Section AppFacts.
Import JS App.

Lemma run_snoc (events : list event) (e : event) :
  run (events ++ [e]) = handle (run events) e.
Proof. unfold run. rewrite foldl_app. reflexivity. Qed.

(** X15. Whatever callbacks fire, in whatever order, the application shows
    at most one page: the current page is always one of search, loading and
    results; an error is kept only on the search page; the results page is
    current only with a received result; at most one child is rendered, and
    none at all only when the results page is current and the received
    result is missing or falsy. *)
Theorem app_shows_at_most_one_page (events : list event) :
  let s := run events in
  (currentPage s = "search" \/ currentPage s = "loading" \/
   currentPage s = "results")
  /\ (error s <> None -> currentPage s = "search")
  /\ (currentPage s = "results" -> exists r, analysisResult s = Some r)
  /\ (length (main s) <= 1)%nat
  /\ (main s = [] ->
      currentPage s = "results" /\
      exists r, analysisResult s = Some r /\
                forall j, r = Some j -> truthy (Api.to_value j) = false).
Proof.
  intros s. subst s.
  assert (Hinv :
    (currentPage (run events) = "search" \/
     (currentPage (run events) = "loading" /\ error (run events) = None) \/
     (currentPage (run events) = "results" /\ error (run events) = None /\
      exists r, analysisResult (run events) = Some r))).
  { induction events as [| e events _] using rev_ind.
    - left. reflexivity.
    - rewrite run_snoc. destruct e; cbn.
      + right. right. repeat split. eexists. reflexivity.
      + left. reflexivity.
      + right. left. split; reflexivity.
      + left. reflexivity. }
  assert (Hview : (length (results_view (run events)) <= 1)%nat).
  { unfold results_view. destruct (analysisResult (run events)) as [[j|]|];
      try (cbn; lia).
    destruct (truthy (Api.to_value j)); [cbn; lia|].
    destruct (Api.to_value j); cbn; lia. }
  unfold main.
  destruct Hinv as [Hp | [[Hp He] | (Hp & He & r & Hr)]]; rewrite Hp;
    cbn [String.eqb Ascii.eqb Bool.eqb app length].
  - repeat split; try tauto; try discriminate; try lia.
  - repeat split; try tauto; try discriminate; try lia; try congruence.
  - split; [tauto|]. split; [congruence|].
    split; [intros _; exists r; exact Hr|]. split; [exact Hview|].
    intros Hnil. split; [reflexivity|]. exists r. split; [exact Hr|].
    intros j ->. unfold results_view in Hnil. rewrite Hr in Hnil.
    destruct (truthy (Api.to_value j)); [discriminate | reflexivity].
Qed.

End AppFacts.

Section SubmitFacts.
Import JS App SearchPage.



(** X17. When the request succeeds with a body that is missing or falsy
    (null, false, 0 or the empty string), the application ends on the
    results page with no page rendered: neither the search page, nor the
    loading page, nor the results.  A body of 0 is then drawn as a bare
    number, any other such body as nothing at all.  With a truthy body the
    results page is rendered with that body. *)
Theorem falsy_body_renders_no_page
    (engine_message : string) (text_of : value -> string)
    (r : Api.Response) (v : View) :
  let done := handleSubmit engine_message text_of (Api.Fulfilled r) v in
  (Api.data r = None -> main (app done) = [])
  /\ (forall j, Api.data r = Some j ->
        truthy (Api.to_value j) = false ->
        main (app done)
        = match j with
          | Api.JNum q => [NumberText (Finite q)]
          | _ => []
          end)
  /\ (forall j, Api.data r = Some j ->
        truthy (Api.to_value j) = true -> main (app done) = [ResultsPage j])
  /\ currentPage (app done) = "results".
Proof.
  intros done.
  assert (Hdone : app done = mkState "results" (Some (Api.data r)) None)
    by reflexivity.
  rewrite Hdone. unfold main, results_view.
  cbn [currentPage analysisResult String.eqb Ascii.eqb Bool.eqb].
  split; [|split; [|split; [|reflexivity]]].
  - intros ->. reflexivity.
  - intros j -> Hj. rewrite Hj. destruct j; reflexivity.
  - intros j -> Hj. rewrite Hj. reflexivity.
Qed.

End SubmitFacts.

(* ===================================================================== *)
(** ** Validation of the search input                                     *)
(* ===================================================================== *)

Section ValidationFacts.
Import Text Markup SearchInput.
Local Open Scope nat_scope.

Lemma validateUrl_blank (s : string) :
  validateUrl s = Some please_enter <-> blank s = true.
Proof.
  unfold validateUrl. destruct (String.eqb_spec (trim s) "") as [Ht | Ht].
  - apply trim_blank in Ht. tauto.
  - assert (Hb : blank s <> true) by (rewrite <- trim_blank; exact Ht).
    destruct (negb (amazonPattern s) && negb (asinPattern s));
      [destruct (bare_asin (trim s))|]; split; try discriminate;
      intros H; contradiction.
Qed.

(** X18. An input that is empty or white space throughout is rejected with
    "Please enter an Amazon product URL", and only such an input is;
    submitting it keeps the text, shows that message and does not call the
    page's handler. *)
Theorem blank_input_is_rejected (st : State) :
  (validateUrl (url st) = Some please_enter <-> blank (url st) = true)
  /\ (blank (url st) = true ->
      handleSubmit st = (mkState (url st) please_enter, None))
  /\ (forall submitted, snd (handleSubmit st) = Some submitted ->
        blank submitted = false /\ submitted = url st).
Proof.
  split; [apply validateUrl_blank|]. split.
  - intros Hb. unfold handleSubmit.
    rewrite (proj2 (validateUrl_blank (url st)) Hb). reflexivity.
  - intros submitted. unfold handleSubmit.
    destruct (validateUrl (url st)) as [e|] eqn:Hv; cbn [snd]; [discriminate|].
    intros [= <-]. split; [|reflexivity].
    destruct (blank (url st)) eqn:Hb; [|reflexivity].
    apply validateUrl_blank in Hb. congruence.
Qed.

Lemma literal_at_append (p s t : string) :
  literal_at p s = true -> literal_at p (String.append s t) = true.
Proof.
  revert s. induction p as [| x p IH]; intros s; [reflexivity|].
  destruct s as [| c s]; [discriminate|]. rewrite append_cons.
  cbn [literal_at]. intros H. apply andb_true_iff in H as [Hc Hs].
  rewrite Hc, (IH s Hs). reflexivity.
Qed.

Lemma literal_at_rest (p s t : string) :
  literal_at p s = true ->
  substring_from (String.length p) (String.append s t)
  = String.append (substring_from (String.length p) s) t.
Proof.
  revert s. induction p as [| x p IH]; intros s; [reflexivity|].
  destruct s as [| c s]; [discriminate|]. rewrite append_cons.
  cbn [literal_at String.length substring_from]. intros H.
  apply andb_true_iff in H as [_ Hs]. exact (IH s Hs).
Qed.

Lemma alnum_at_append (n : nat) (s t : string) :
  alnum_at n s = true -> alnum_at n (String.append s t) = true.
Proof.
  revert s. induction n as [| n IH]; intros s; [reflexivity|].
  destruct s as [| c s]; [discriminate|]. rewrite append_cons.
  cbn [alnum_at]. intros H. apply andb_true_iff in H as [Hc Hs].
  rewrite Hc, (IH s Hs). reflexivity.
Qed.

Lemma anywhere_append (here : string -> bool) (s t : string) :
  (forall u, here u = true -> here (String.append u t) = true) ->
  anywhere here s = true -> anywhere here (String.append s t) = true.
Proof.
  intros Hext. induction s as [| c s IH].
  - cbn [anywhere]. rewrite orb_false_r. intros H. apply Hext in H.
    rewrite append_nil_l in *. destruct t; cbn [anywhere]; rewrite H; reflexivity.
  - rewrite append_cons. cbn [anywhere]. intros H.
    apply orb_true_iff in H as [H | H].
    + apply Hext in H. rewrite append_cons in H. rewrite H. reflexivity.
    + rewrite (IH H). apply orb_true_r.
Qed.

Lemma anywhere_prepend (here : string -> bool) (pre s : string) :
  anywhere here s = true -> anywhere here (String.append pre s) = true.
Proof.
  intros H. induction pre as [| c pre IH]; [exact H|].
  rewrite append_cons. cbn [anywhere]. rewrite IH. apply orb_true_r.
Qed.

Lemma anywhere_not_blank (here : string -> bool) (s : string) :
  (forall u, here u = true -> blank u = false) ->
  anywhere here s = true -> blank s = false.
Proof.
  intros Hnb. induction s as [| c s IH]; cbn [anywhere].
  - rewrite orb_false_r. apply Hnb.
  - intros H. apply orb_true_iff in H as [H | H]; [exact (Hnb _ H)|].
    cbn [blank]. rewrite (IH H). apply andb_false_r.
Qed.

Lemma amazon_at_append (u t : string) :
  amazon_at u = true -> amazon_at (String.append u t) = true.
Proof.
  unfold amazon_at. intros H. apply andb_true_iff in H as [Hl Hd].
  rewrite (literal_at_append _ _ t Hl).
  pose proof (literal_at_rest "amazon." u t Hl) as Hr.
  change (String.length "amazon.") with 7 in Hr. rewrite Hr. cbn [andb].
  apply existsb_exists in Hd as (d & Hin & Hd). apply existsb_exists.
  exists d. split; [exact Hin|]. apply literal_at_append. exact Hd.
Qed.

Lemma asin_at_append (u t : string) :
  asin_at u = true -> asin_at (String.append u t) = true.
Proof.
  unfold asin_at. intros H. apply orb_true_iff in H as [H | H];
    apply andb_true_iff in H as [Hl Ha]; apply orb_true_iff; [left | right].
  - pose proof (literal_at_rest "/dp/" u t Hl) as Hr.
    change (String.length "/dp/") with 4 in Hr.
    rewrite (literal_at_append _ _ t Hl), Hr.
    apply alnum_at_append. exact Ha.
  - pose proof (literal_at_rest "/gp/product/" u t Hl) as Hr.
    change (String.length "/gp/product/") with 12 in Hr.
    rewrite (literal_at_append _ _ t Hl), Hr.
    apply alnum_at_append. exact Ha.
Qed.

Lemma letter_a_not_space (c : Ascii.ascii) :
  Ascii.eqb (upper "a") (upper c) = true -> is_white_space c = false.
Proof.
  destruct c as [[] [] [] [] [] [] [] []]; vm_compute; congruence.
Qed.

Lemma slash_not_space (c : Ascii.ascii) :
  Ascii.eqb (upper "/") (upper c) = true -> is_white_space c = false.
Proof.
  destruct c as [[] [] [] [] [] [] [] []]; vm_compute; congruence.
Qed.

Lemma amazon_at_not_blank (u : string) : amazon_at u = true -> blank u = false.
Proof.
  unfold amazon_at. intros H. apply andb_true_iff in H as [Hl _].
  destruct u as [| c u]; [discriminate|]. cbn [literal_at] in Hl.
  apply andb_true_iff in Hl as [Hc _]. cbn [blank].
  rewrite (letter_a_not_space c Hc). reflexivity.
Qed.

Lemma asin_at_not_blank (u : string) : asin_at u = true -> blank u = false.
Proof.
  unfold asin_at. intros H.
  apply orb_true_iff in H as [H | H]; apply andb_true_iff in H as [Hl _];
    (destruct u as [| c u]; [discriminate|]); cbn [literal_at] in Hl;
    apply andb_true_iff in Hl as [Hc _]; cbn [blank];
    rewrite (slash_not_space c Hc); reflexivity.
Qed.

(** X19. The Amazon domain and the /dp/ and /gp/product/ paths are looked
    for anywhere in the input: an input that holds such a match stays
    valid with any text before and after it. *)
Theorem domain_match_is_unanchored (before u after : string) :
  amazonPattern u = true \/ asinPattern u = true ->
  validateUrl (String.append before (String.append u after)) = None.
Proof.
  intros Hu. unfold validateUrl.
  assert (Hnb : blank (String.append before (String.append u after)) = false).
  { rewrite !blank_append.
    assert (blank u = false) as ->.
    { destruct Hu as [H | H];
        [ exact (anywhere_not_blank _ _ amazon_at_not_blank H)
        | exact (anywhere_not_blank _ _ asin_at_not_blank H) ]. }
    cbn [andb]. apply andb_false_r. }
  destruct (String.eqb_spec
              (trim (String.append before (String.append u after))) "") as [Ht|_].
  { apply trim_blank in Ht. congruence. }
  destruct Hu as [H | H].
  - assert (amazonPattern (String.append before (String.append u after)) = true)
      as ->; [|reflexivity].
    apply anywhere_prepend, anywhere_append; [|exact H].
    intros x. apply amazon_at_append.
  - assert (asinPattern (String.append before (String.append u after)) = true)
      as ->; [|rewrite andb_false_r; reflexivity].
    apply anywhere_prepend, anywhere_append; [|exact H].
    intros x. apply asin_at_append.
Qed.

Lemma alnum_not_space (c : Ascii.ascii) :
  is_alnum c = true -> is_white_space c = false.
Proof.
  destruct c as [[] [] [] [] [] [] [] []]; vm_compute; congruence.
Qed.

Lemma alnum_at_no_space (n : nat) (s : string) :
  alnum_at n s = true -> String.length s = n -> no_space s = true.
Proof.
  revert s. induction n as [| n IH]; intros [| c s]; try discriminate;
    [reflexivity|].
  cbn [alnum_at String.length no_space]. intros H Hlen.
  apply andb_true_iff in H as [Hc Hs].
  rewrite (alnum_not_space c Hc), IH by (assumption || lia). reflexivity.
Qed.

Lemma no_space_append (a b : string) :
  no_space (String.append a b) = no_space a && no_space b.
Proof.
  induction a as [| x a IH]; [reflexivity|].
  rewrite append_cons. cbn [no_space]. rewrite IH, andb_assoc. reflexivity.
Qed.

Lemma no_space_rev (a : string) : no_space (String.rev a) = no_space a.
Proof.
  induction a as [| x a IH]; [reflexivity|].
  rewrite rev_cons, no_space_append, IH. cbn [no_space].
  rewrite andb_true_r. apply andb_comm.
Qed.

Lemma trimStart_no_space (a t : string) :
  no_space a = true -> a <> EmptyString ->
  trimStart (String.append a t) = String.append a t.
Proof.
  destruct a as [| c a]; [contradiction|]. intros H _.
  cbn [no_space] in H. apply andb_true_iff in H as [Hc _].
  rewrite append_cons. cbn [trimStart].
  apply negb_true_iff in Hc. rewrite Hc. reflexivity.
Qed.

Lemma trim_padded (w1 a w2 : string) :
  blank w1 = true -> blank w2 = true ->
  no_space a = true -> a <> EmptyString ->
  trim (String.append w1 (String.append a w2)) = a.
Proof.
  intros H1 H2 Ha Hne. unfold trim.
  rewrite (trimStart_skip w1 _ H1), (trimStart_no_space a w2 Ha Hne).
  rewrite rev_append, trimStart_skip by (rewrite blank_rev; exact H2).
  rewrite <- (append_nil_r (String.rev a)).
  rewrite trimStart_no_space.
  - rewrite append_nil_r. apply rev_involutive.
  - rewrite no_space_rev. exact Ha.
  - rewrite rev_empty. exact Hne.
Qed.

(** X20. Ten letters or digits are accepted as a bare ASIN, also with
    white space typed around them; the page's handler is then called with
    the input as typed, white space included. *)
Theorem padded_asin_is_accepted (w1 a w2 : string) :
  blank w1 = true -> blank w2 = true ->
  String.length a = 10 -> alnum_at 10 a = true ->
  let typed := String.append w1 (String.append a w2) in
  trim typed = a
  /\ validateUrl typed = None
  /\ forall shown_error,
       handleSubmit (mkState typed shown_error)
       = (mkState typed EmptyString, Some typed).
Proof.
  intros H1 H2 Hlen Ha typed. subst typed.
  assert (Hne : a <> EmptyString) by (intros ->; discriminate Hlen).
  pose proof (trim_padded w1 a w2 H1 H2 (alnum_at_no_space 10 a Ha Hlen) Hne)
    as Htrim.
  assert (Hv : validateUrl (String.append w1 (String.append a w2)) = None).
  { unfold validateUrl. rewrite Htrim.
    destruct (String.eqb_spec a ""); [contradiction|].
    unfold bare_asin. rewrite Ha, Hlen. cbn [Nat.eqb andb].
    destruct (negb _ && negb _); reflexivity. }
  split; [exact Htrim|]. split; [exact Hv|].
  intros shown_error. unfold handleSubmit. cbn [url]. rewrite Hv. reflexivity.
Qed.

End ValidationFacts.

(* ===================================================================== *)
(** ** The theorems at concrete inputs                                    *)
(* ===================================================================== *)

Section Instances.
Import JS.

Lemma distribution_counts_each_bucket_witness :
  Forall (fun review => RatingChart.rating review <> NaN) Sample.reviews /\
  RatingChart.calculateDistribution Sample.reviews
  = @Normal exn _
      [ RatingChart.mkRow "1 Star" 2 0; RatingChart.mkRow "2 Stars" 0 0;
        RatingChart.mkRow "3 Stars" 1 0; RatingChart.mkRow "4 Stars" 0 0;
        RatingChart.mkRow "5 Stars" 1 1 ].
Proof.
  split; [exact sample_reviews_numeric|].
  exact (proj1 (distribution_counts_each_bucket Sample.reviews
                  sample_reviews_numeric)).
Defined.

Lemma distribution_order_independent_witness :
  Permutation Sample.reviews (rev Sample.reviews) /\
  RatingChart.calculateDistribution Sample.reviews
  = RatingChart.calculateDistribution (rev Sample.reviews).
Proof.
  split; [apply Permutation_rev|].
  apply distribution_order_independent, Permutation_rev.
Defined.

Lemma summary_keeps_every_line_witness :
  let s := String.append "**Verdict**" (String "010"%char "- many fakes") in
  s <> EmptyString /\
  exists els, SummaryCard.formatSummary (Some s) = SummaryCard.Elements els /\
              length els = 2%nat.
Proof.
  intros s. split; [discriminate|].
  destruct summary_keeps_every_line as (_ & _ & H).
  destruct (H s) as (lines & els & _ & _ & Hf & _ & Hn & _); [discriminate|].
  exists els. split; [exact Hf | exact Hn].
Defined.



Lemma falsy_body_renders_no_page_witness :
  let r := Api.mkResponse (Some Api.JNull) in
  truthy (Api.to_value Api.JNull) = false /\
  App.main (SearchPage.app
              (SearchPage.handleSubmit "" (fun _ => "") (Api.Fulfilled r)
                 (SearchPage.mkView App.initial false))) = [].
Proof.
  intros r. split; [reflexivity|].
  destruct (falsy_body_renders_no_page "" (fun _ => "") r
              (SearchPage.mkView App.initial false)) as (_ & H & _).
  exact (H Api.JNull eq_refl eq_refl).
Defined.

Lemma blank_input_is_rejected_witness :
  Markup.blank "   " = true /\
  SearchInput.handleSubmit (SearchInput.mkState "   " "")
  = (SearchInput.mkState "   " SearchInput.please_enter, None).
Proof.
  split; [reflexivity|].
  destruct (blank_input_is_rejected (SearchInput.mkState "   " ""))
    as (_ & H & _).
  exact (H eq_refl).
Defined.

Lemma domain_match_is_unanchored_witness :
  (SearchInput.amazonPattern "amazon.in" = true \/
   SearchInput.asinPattern "amazon.in" = true) /\
  SearchInput.validateUrl
    (String.append "https://www." (String.append "amazon.in" "/dp/B08N5WRWNW"))
  = None.
Proof.
  assert (H : SearchInput.amazonPattern "amazon.in" = true \/
              SearchInput.asinPattern "amazon.in" = true)
    by (left; reflexivity).
  split; [exact H|].
  exact (domain_match_is_unanchored "https://www." "amazon.in"
           "/dp/B08N5WRWNW" H).
Defined.

Lemma padded_asin_is_accepted_witness :
  Markup.blank "  " = true /\ Markup.blank " " = true /\
  String.length "B08N5WRWNW" = 10%nat /\
  SearchInput.alnum_at 10 "B08N5WRWNW" = true /\
  SearchInput.validateUrl "  B08N5WRWNW " = None.
Proof.
  repeat (split; [reflexivity|]).
  exact (proj1 (proj2 (padded_asin_is_accepted "  " "B08N5WRWNW" " "
                         eq_refl eq_refl eq_refl eq_refl))).
Defined.

End Instances.
